(** * snapshot: collecting diagnostics of a running Go program

    A shallow embedding of package [snapshot] (snapshot.go): the [Snapshot]
    record, [Collect] and [Full].  The package is a straight line of calls
    into the Go runtime, the operating system and the archive/zip,
    encoding/json and runtime/pprof packages.  Those calls are modelled as
    operations of a small state monad over a [World]: the file system, the
    process as the operating system reports it, the runtime's readings, and
    the failures the environment is going to answer with.  A Go [panic] is a
    second kind of result next to a returned value. *)

From Stdlib Require Import ZArith String Lia.
From Stdlib Require Import Init.Byte.
From stdpp Require Import base strings gmap.

Local Open Scope string_scope.
Local Open Scope Z_scope.
Local Open Scope list_scope.

Abbreviation byte := Byte.byte.

(** ** Go values *)

(** A Go [error]: [None] is [nil], [Some msg] an error whose [Error()] is
    [msg]. *)
Definition error : Type := option string.

(** What running a Go function gives: it returns a value, or it panics. *)
Inductive res (A : Type) : Type :=
| Val (a : A)
| Panic (msg : string).
Arguments Val {A} a.
Arguments Panic {A} msg.

(** The message of the run-time panic of [*p] for a nil [p]. *)
Definition nil_dereference : string :=
  "runtime error: invalid memory address or nil pointer dereference".

(** [fmt.Errorf(format, cause)] for a format that ends in its only verb
    [%s]; [prefix] is the format up to the verb. *)
Definition Errorf (prefix : string) (cause : string) : error :=
  Some (prefix +:+ cause).

(** Constants of package [os] (values of linux). *)
Definition O_WRONLY : Z := 0x1.
Definition O_CREATE : Z := 0x40.
Definition O_TRUNC : Z := 0x200.
(** [ModePerm] is octal 0777. *)
Definition ModePerm : Z := 7 * 64 + 7 * 8 + 7.

Definition has_flag (bit flag : Z) : bool := negb (Z.land flag bit =? 0).

(** Debug levels of the goroutine profile of package [runtime/pprof]:
    level 0 is the binary form; level 1 is text in which goroutines that
    share a stack are merged into one record with a count; level 2 prints
    every goroutine with its own stack, in the format of an unrecovered
    panic, and is the full dump. *)
Definition full_verbosity : Z := 2.

(** ** The file system *)

(** A file: its permission bits, the bytes written to it through a
    descriptor, and what was written through a [zip.Writer] over it, kept
    as the list of entries (name, content) in the order of their creation
    together with whether the writer has been closed, which is when the
    central directory of the archive is written. *)
Record File : Type := mkFile {
  f_mode : Z;
  f_data : list byte;
  f_entries : list (string * list byte);
  f_finalized : bool
}.

Definition new_file (mode : Z) : File := mkFile mode [] [] false.

Definition truncate (f : File) : File := mkFile (f_mode f) [] [] false.

Definition append_data (bs : list byte) (f : File) : File :=
  mkFile (f_mode f) (f_data f ++ bs) (f_entries f) (f_finalized f).

Definition add_entry (name : string) (f : File) : File :=
  mkFile (f_mode f) (f_data f) (f_entries f ++ [(name, [])]) (f_finalized f).

(** Bytes written to an entry writer go to the entry created last. *)
Fixpoint write_last (bs : list byte) (es : list (string * list byte))
  : list (string * list byte) :=
  match es with
  | [] => []
  | [(n, c)] => [(n, c ++ bs)]
  | e :: es' => e :: write_last bs es'
  end.

Definition write_entry (bs : list byte) (f : File) : File :=
  mkFile (f_mode f) (f_data f) (write_last bs (f_entries f)) (f_finalized f).

Definition finalize (f : File) : File :=
  mkFile (f_mode f) (f_data f) (f_entries f) true.

(** ** Calls that leave the process *)

Inductive Event : Type :=
| EvOpenFile (name : string) (flag perm : Z)
| EvZipCreate (file name : string)
| EvEncode (entry : string) (prefix indent : string)
| EvWriteProfile (profile entry : string) (debug : Z)
| EvCreateTemp (dir pattern : string)
| EvWriteHeapDump (file : string)
| EvSeek (file : string) (offset whence : Z)
| EvCopy (entry file : string)
| EvClose (file : string)
| EvRemove (name : string)
| EvZipClose (file : string).

(** The failures the environment answers with.  Every call of [Full] that
    returns an error has one field here: [None] lets the call succeed,
    [Some msg] makes it return the error [msg].  [open_refused] is by path:
    a missing parent directory and a missing write permission are among the
    reasons for which the operating system refuses to open a path.
    [copy_fault = Some (n, msg)] makes [io.Copy] stop after [n] bytes. *)
Record Faults : Type := mkFaults {
  open_refused : string -> option string;
  zip_create_fault : string -> option string;
  encode_fault : option string;
  profile_fault : option string;
  createtemp_fault : option string;
  seek_fault : option string;
  copy_fault : option (nat * string);
  remove_fault : option string;
  zip_close_fault : option string
}.

Definition no_faults : Faults :=
  mkFaults (fun _ => None) (fun _ => None) None None None None None None None.

Section Snapshot.

(** [runtime.MemStats], [debug.GCStats] and [debug.BuildInfo] are declared
    by the Go runtime, not by this package, which only stores them. *)
Context {runtime_MemStats debug_GCStats debug_BuildInfo : Type}.

(** ** The Snapshot record (snapshot.go, lines 16-29) *)
Record Snapshot : Type := mkSnapshot {
  Memory : runtime_MemStats;
  GC : debug_GCStats;
  Stack : string;
  BuildInfo : debug_BuildInfo;
  NumGoRoutines : Z;
  Pid : Z;
  Uid : Z;
  Gid : Z;
  Environ : list string;
  Executable : string;
  Wd : string;
  Hostname : string
}.

(** [encoding/json] renders a record as text for a prefix and an indent, or
    refuses it with an error (the package declares neither). *)
Variable json_Marshal : Snapshot -> string -> string -> list byte + string.

(** The process as the operating system and the binary describe it.  The
    three lookups that can fail answer with Go's pair of a value and an
    error; [read_build_info = None] is [debug.ReadBuildInfo] answering
    [(nil, false)], which it does for a binary built without module
    support. *)
Record Process : Type := mkProcess {
  getpid : Z;
  getuid : Z;
  getgid : Z;
  environ : list string;
  executable : string * error;
  getwd : string * error;
  hostname : string * error;
  read_build_info : option debug_BuildInfo
}.

(** What the runtime reports at one instant. *)
Record Reading : Type := mkReading {
  mem_stats : runtime_MemStats;
  gc_stats : debug_GCStats;
  stack : string;
  num_goroutine : Z
}.

(** The runtime: its readings over time, the text [Profile.WriteTo] writes
    for a profile name and a debug level, and the image
    [debug.WriteHeapDump] writes. *)
Record Runtime : Type := mkRuntime {
  readings : nat -> Reading;
  pprof_text : string -> Z -> list byte;
  heap_image : list byte
}.

Record World : Type := mkWorld {
  process : Process;
  runtime : Runtime;
  faults : Faults;
  umask : Z;
  temp_dir : string;
  temp_rand : string;
  clock : nat;
  files : gmap string File;
  tmp_pos : nat;
  log : list Event
}.

Definition set_clock (c : nat) (w : World) : World :=
  mkWorld (process w) (runtime w) (faults w) (umask w) (temp_dir w)
    (temp_rand w) c (files w) (tmp_pos w) (log w).

Definition set_files (fs : gmap string File) (w : World) : World :=
  mkWorld (process w) (runtime w) (faults w) (umask w) (temp_dir w)
    (temp_rand w) (clock w) fs (tmp_pos w) (log w).

Definition set_tmp_pos (p : nat) (w : World) : World :=
  mkWorld (process w) (runtime w) (faults w) (umask w) (temp_dir w)
    (temp_rand w) (clock w) (files w) p (log w).

Definition set_faults (fl : Faults) (w : World) : World :=
  mkWorld (process w) (runtime w) fl (umask w) (temp_dir w)
    (temp_rand w) (clock w) (files w) (tmp_pos w) (log w).

Definition set_process (p : Process) (w : World) : World :=
  mkWorld p (runtime w) (faults w) (umask w) (temp_dir w)
    (temp_rand w) (clock w) (files w) (tmp_pos w) (log w).

Definition record_event (e : Event) (w : World) : World :=
  mkWorld (process w) (runtime w) (faults w) (umask w) (temp_dir w)
    (temp_rand w) (clock w) (files w) (tmp_pos w) (log w ++ [e]).

(** ** The monad of Go statements *)

Definition M (A : Type) : Type := World -> World * res A.

Definition ret {A : Type} (a : A) : M A := fun w => (w, Val a).

Definition bind {A B : Type} (m : M A) (k : A -> M B) : M B :=
  fun w =>
    match m w with
    | (w', Val a) => k a w'
    | (w', Panic msg) => (w', Panic msg)
    end.

(** [defer d] followed by [body]: [d] runs when [body] is left, by a
    return or by a panic, and the result of [body] stands. *)
Definition defer {A B : Type} (d : M B) (body : M A) : M A :=
  fun w =>
    match body w with
    | (w', r) => (fst (d w'), r)
    end.

Notation "x <- m ;; k" := (bind m (fun x => k))
  (at level 20, m at level 99, k at level 200, only parsing).
Notation "' p <- m ;; k" := (bind m (fun x => let 'p := x in k))
  (at level 20, p pattern, m at level 99, k at level 200, only parsing).

(** [*p]: the value behind a pointer, a panic when the pointer is nil. *)
Definition deref {A : Type} (p : option A) : M A :=
  fun w =>
    match p with
    | Some a => (w, Val a)
    | None => (w, Panic nil_dereference)
    end.

(** ** Queries of the runtime and of the operating system *)

(** A reading of the runtime is taken at the current instant, and time
    moves on. *)
Definition read_runtime {A : Type} (field : Reading -> A) : M A :=
  fun w => (set_clock (S (clock w)) w, Val (field (readings (runtime w) (clock w)))).

Definition runtime_ReadMemStats : M runtime_MemStats := read_runtime mem_stats.
Definition debug_ReadGCStats : M debug_GCStats := read_runtime gc_stats.
Definition debug_Stack : M string := read_runtime stack.
Definition runtime_NumGoroutine : M Z := read_runtime num_goroutine.

Definition ask {A : Type} (field : Process -> A) : M A :=
  fun w => (w, Val (field (process w))).

(** [debug.ReadBuildInfo] returns a pointer and a flag. *)
Definition debug_ReadBuildInfo : M (option debug_BuildInfo * bool) :=
  fun w =>
    match read_build_info (process w) with
    | Some bi => (w, Val (Some bi, true))
    | None => (w, Val (None, false))
    end.

Definition os_Getpid : M Z := ask getpid.
Definition os_Getuid : M Z := ask getuid.
Definition os_Getgid : M Z := ask getgid.
Definition os_Environ : M (list string) := ask environ.
Definition os_Executable : M (string * error) := ask executable.
Definition os_Getwd : M (string * error) := ask getwd.
Definition os_Hostname : M (string * error) := ask hostname.

(** ** Collect (snapshot.go, lines 33-52) *)
Definition Collect : M Snapshot :=
  memory <- runtime_ReadMemStats ;;
  gc <- debug_ReadGCStats ;;
  '(buildInfo, _) <- debug_ReadBuildInfo ;;
  bi <- deref buildInfo ;;
  stk <- debug_Stack ;;
  n <- runtime_NumGoroutine ;;
  pid <- os_Getpid ;;
  uid <- os_Getuid ;;
  gid <- os_Getgid ;;
  env <- os_Environ ;;
  '(exe, _) <- os_Executable ;;
  '(wd, _) <- os_Getwd ;;
  '(hostname, _) <- os_Hostname ;;
  ret (mkSnapshot memory gc stk bi n pid uid gid env exe wd hostname).

(** ** Files *)

Definition alter_file (g : File -> File) (name : string) (w : World) : World :=
  set_files (alter g name (files w)) w.

(** An [*os.File] is known by the path it was opened at; [nil_file] stands
    for the nil pointer returned next to an error. *)
Definition nil_file : string := "".
Definition File_Fd (f : string) : string := f.
Definition File_Name (f : string) : string := f.

(** [os.OpenFile]: refused by the operating system, or else the file is
    truncated under [O_TRUNC] when it exists and created under [O_CREATE],
    with the permission bits that the umask leaves, when it does not. *)
Definition os_OpenFile (name : string) (flag perm : Z) : M (string * error) :=
  fun w0 =>
    let w := record_event (EvOpenFile name flag perm) w0 in
    match open_refused (faults w) name with
    | Some e => (w, Val (nil_file, Some e))
    | None =>
      match files w !! name with
      | Some f =>
        if has_flag O_TRUNC flag
        then (set_files (<[name := truncate f]> (files w)) w, Val (name, None))
        else (w, Val (name, None))
      | None =>
        if has_flag O_CREATE flag
        then (set_files (<[name := new_file (Z.land perm (Z.lnot (umask w)))]>
                           (files w)) w,
              Val (name, None))
        else (w, Val (nil_file,
                      Some ("open " +:+ name +:+ ": no such file or directory")))
      end
    end.

Definition File_Close (f : string) : M error :=
  fun w => (record_event (EvClose f) w, Val None).

(** [os.CreateTemp]: a new file of mode 0600 whose name is the pattern
    followed by the random part, in the default directory for an empty
    [dir]; the name must be free. *)
Definition os_CreateTemp (dir pattern : string) : M (string * error) :=
  fun w0 =>
    let w := record_event (EvCreateTemp dir pattern) w0 in
    let d := if decide (dir = "") then temp_dir w else dir in
    let name := d +:+ "/" +:+ pattern +:+ temp_rand w in
    match createtemp_fault (faults w) with
    | Some e => (w, Val (nil_file, Some e))
    | None =>
      match files w !! name with
      | Some _ => (w, Val (nil_file, Some ("open " +:+ name +:+ ": file exists")))
      | None =>
        (set_tmp_pos 0
           (set_files (<[name := new_file (Z.land (6 * 64) (Z.lnot (umask w)))]>
                         (files w)) w),
         Val (name, None))
      end
    end.

(** [debug.WriteHeapDump] writes the image at the descriptor's offset and
    returns nothing. *)
Definition debug_WriteHeapDump (fd : string) : M unit :=
  fun w0 =>
    let w := record_event (EvWriteHeapDump fd) w0 in
    let img := heap_image (runtime w) in
    (set_tmp_pos (tmp_pos w + length img)%nat (alter_file (append_data img) fd w),
     Val tt).

(** [File.Seek]; [whence = 0] is the start of the file, the only origin
    the package uses. *)
Definition File_Seek (f : string) (offset whence : Z) : M (Z * error) :=
  fun w0 =>
    let w := record_event (EvSeek f offset whence) w0 in
    match seek_fault (faults w) with
    | Some e => (w, Val (0, Some e))
    | None =>
      if whence =? 0
      then (set_tmp_pos (Z.to_nat offset) w, Val (offset, None))
      else (w, Val (Z.of_nat (tmp_pos w), None))
    end.

Definition os_Remove (name : string) : M error :=
  fun w0 =>
    let w := record_event (EvRemove name) w0 in
    match remove_fault (faults w) with
    | Some e => (w, Val (Some e))
    | None =>
      match files w !! name with
      | Some _ => (set_files (delete name (files w)) w, Val None)
      | None => (w, Val (Some ("remove " +:+ name +:+ ": no such file or directory")))
      end
    end.

(** ** The archive writer *)

(** A [*zip.Writer] is known by the file it writes to, an entry writer by
    that file and the entry's name. *)
Record Entry : Type := mkEntry { e_file : string; e_name : string }.

Definition nil_entry : Entry := mkEntry "" "".

Definition zip_NewWriter (f : string) : M string := ret f.

Definition zw_Create (zw : string) (name : string) : M (Entry * error) :=
  fun w0 =>
    let w := record_event (EvZipCreate zw name) w0 in
    match zip_create_fault (faults w) name with
    | Some e => (w, Val (nil_entry, Some e))
    | None => (alter_file (add_entry name) zw w, Val (mkEntry zw name, None))
    end.

Definition zw_Close (zw : string) : M error :=
  fun w0 =>
    let w := record_event (EvZipClose zw) w0 in
    match zip_close_fault (faults w) with
    | Some e => (w, Val (Some e))
    | None => (alter_file finalize zw w, Val None)
    end.

(** [io.Copy] from the descriptor's offset to the end of the file, into
    the entry. *)
Definition io_Copy (dst : Entry) (src : string) : M (Z * error) :=
  fun w0 =>
    let w := record_event (EvCopy (e_name dst) src) w0 in
    let bs := match files w !! src with
              | Some f => drop (tmp_pos w) (f_data f)
              | None => []
              end in
    match copy_fault (faults w) with
    | Some (n, e) =>
      (set_tmp_pos (tmp_pos w + length (take n bs))%nat
         (alter_file (write_entry (take n bs)) (e_file dst) w),
       Val (Z.of_nat (length (take n bs)), Some e))
    | None =>
      (set_tmp_pos (tmp_pos w + length bs)%nat
         (alter_file (write_entry bs) (e_file dst) w),
       Val (Z.of_nat (length bs), None))
    end.

(** ** The JSON encoder and the profiles *)

Record Encoder : Type := mkEncoder {
  enc_out : Entry;
  enc_prefix : string;
  enc_indent : string
}.

Definition json_NewEncoder (out : Entry) : M Encoder := ret (mkEncoder out "" "").

Definition Encoder_SetIndent (enc : Encoder) (prefix indent : string) : M Encoder :=
  ret (mkEncoder (enc_out enc) prefix indent).

Definition Encoder_Encode (enc : Encoder) (sn : Snapshot) : M error :=
  fun w0 =>
    let w := record_event
               (EvEncode (e_name (enc_out enc)) (enc_prefix enc) (enc_indent enc)) w0 in
    match json_Marshal sn (enc_prefix enc) (enc_indent enc) with
    | inr e => (w, Val (Some e))
    | inl bs =>
      match encode_fault (faults w) with
      | Some e => (w, Val (Some e))
      | None => (alter_file (write_entry bs) (e_file (enc_out enc)) w, Val None)
      end
    end.

Definition pprof_Lookup (name : string) : M string := ret name.

Definition Profile_WriteTo (p : string) (out : Entry) (debug : Z) : M error :=
  fun w0 =>
    let w := record_event (EvWriteProfile p (e_name out) debug) w0 in
    match profile_fault (faults w) with
    | Some e => (w, Val (Some e))
    | None =>
      (alter_file (write_entry (pprof_text (runtime w) p debug)) (e_file out) w,
       Val None)
    end.

(** ** Full (snapshot.go, lines 64-111) *)

(** [if err != nil { return fmt.Errorf("<tag>: %s", err.Error()) }] *)
Definition check (err : error) (prefix : string) (k : M error) : M error :=
  match err with
  | Some e => ret (Errorf prefix e)
  | None => k
  end.

Notation "'fail_if' err prefix ;; k" := (check err prefix k)
  (at level 20, err at level 0, prefix at level 0, k at level 200, only parsing).

Definition Full (fileName : string) : M error :=
  '(f, err) <- os_OpenFile fileName (Z.lor (Z.lor O_CREATE O_WRONLY) O_TRUNC) ModePerm ;;
  fail_if err "open: " ;;
  defer (File_Close f) (
    zw <- zip_NewWriter f ;;
    sn <- Collect ;;
    '(snapshotFile, err) <- zw_Create zw "snapshot.json" ;;
    fail_if err "snapshot: " ;;
    encoder <- json_NewEncoder snapshotFile ;;
    encoder <- Encoder_SetIndent encoder "" "    " ;;
    err <- Encoder_Encode encoder sn ;;
    fail_if err "snapshot: " ;;
    '(traceFile, err) <- zw_Create zw "stack.txt" ;;
    fail_if err "trace: " ;;
    profile <- pprof_Lookup "goroutine" ;;
    err <- Profile_WriteTo profile traceFile 1 ;;
    fail_if err "trace: " ;;
    '(tmpFile, err) <- os_CreateTemp "" "dump" ;;
    fail_if err "dump: " ;;
    _ <- debug_WriteHeapDump (File_Fd tmpFile) ;;
    _ <- File_Seek tmpFile 0 0 ;;
    '(dumpFile, err) <- zw_Create zw "heap.bin" ;;
    fail_if err "dump: " ;;
    _ <- io_Copy dumpFile tmpFile ;;
    _ <- File_Close tmpFile ;;
    _ <- os_Remove (File_Name tmpFile) ;;
    _ <- zw_Close zw ;;
    ret None).

(** *** The stages of [Full]

    The body of [Full] from the creation of each entry on, as functions of
    their own: lines 93-110, 85-110 and 72-110. *)
Definition dump_stage (zw : string) : M error :=
  '(tmpFile, err) <- os_CreateTemp "" "dump" ;;
  fail_if err "dump: " ;;
  _ <- debug_WriteHeapDump (File_Fd tmpFile) ;;
  _ <- File_Seek tmpFile 0 0 ;;
  '(dumpFile, err) <- zw_Create zw "heap.bin" ;;
  fail_if err "dump: " ;;
  _ <- io_Copy dumpFile tmpFile ;;
  _ <- File_Close tmpFile ;;
  _ <- os_Remove (File_Name tmpFile) ;;
  _ <- zw_Close zw ;;
  ret None.

Definition trace_stage (zw : string) : M error :=
  '(traceFile, err) <- zw_Create zw "stack.txt" ;;
  fail_if err "trace: " ;;
  profile <- pprof_Lookup "goroutine" ;;
  err <- Profile_WriteTo profile traceFile 1 ;;
  fail_if err "trace: " ;;
  dump_stage zw.

Definition snapshot_stage (zw : string) : M error :=
  sn <- Collect ;;
  '(snapshotFile, err) <- zw_Create zw "snapshot.json" ;;
  fail_if err "snapshot: " ;;
  encoder <- json_NewEncoder snapshotFile ;;
  encoder <- Encoder_SetIndent encoder "" "    " ;;
  err <- Encoder_Encode encoder sn ;;
  fail_if err "snapshot: " ;;
  trace_stage zw.

(** ** Vocabulary of the properties *)

(** The record [Collect] assembles in [w] when the build information is
    [bi]: the four readings of the runtime are taken one after the other,
    the rest is what the operating system answers. *)
Definition collected (w : World) (bi : debug_BuildInfo) : Snapshot :=
  let r := readings (runtime w) in
  let c := clock w in
  mkSnapshot (mem_stats (r c)) (gc_stats (r (S c))) (stack (r (S (S c)))) bi
    (num_goroutine (r (S (S (S c)))))
    (getpid (process w)) (getuid (process w)) (getgid (process w))
    (environ (process w)) (fst (executable (process w)))
    (fst (getwd (process w))) (fst (hostname (process w))).

(** The path [os.CreateTemp("", "dump")] picks in [w]. *)
Definition temp_path (w : World) : string :=
  temp_dir w +:+ "/" +:+ "dump" +:+ temp_rand w.

(** The bytes [io.Copy] moves from the temporary file into the archive:
    the image from the descriptor's offset on, which is the end of the file
    when the rewind failed, cut short where the copy fails. *)
Definition copied (w : World) : list byte :=
  let img := heap_image (runtime w) in
  let pos := match seek_fault (faults w) with
             | Some _ => length img
             | None => 0%nat
             end in
  match copy_fault (faults w) with
  | Some (n, _) => take n (drop pos img)
  | None => drop pos img
  end.

(** What each stage returns and which entries it adds to the archive, read
    off the answers of the environment in the world [w] the stage starts
    in. *)
Definition dump_outcome (w : World) (r : res error)
    (added : list (string * list byte)) : Prop :=
  match createtemp_fault (faults w) with
  | Some e => added = [] /\ r = Val (Some ("dump: " +:+ e))
  | None =>
    match files w !! temp_path w with
    | Some _ =>
      added = [] /\
      r = Val (Some ("dump: " +:+ ("open " +:+ temp_path w +:+ ": file exists")))
    | None =>
      match zip_create_fault (faults w) "heap.bin" with
      | Some e => added = [] /\ r = Val (Some ("dump: " +:+ e))
      | None => added = [("heap.bin", copied w)] /\ r = Val None
      end
    end
  end.

Definition trace_outcome (w : World) (r : res error)
    (added : list (string * list byte)) : Prop :=
  match zip_create_fault (faults w) "stack.txt" with
  | Some e => added = [] /\ r = Val (Some ("trace: " +:+ e))
  | None =>
    match profile_fault (faults w) with
    | Some e => added = [("stack.txt", [])] /\ r = Val (Some ("trace: " +:+ e))
    | None =>
      exists rest,
        added = ("stack.txt", pprof_text (runtime w) "goroutine" 1) :: rest /\
        dump_outcome w r rest
    end
  end.

Definition snapshot_outcome (w : World) (r : res error)
    (added : list (string * list byte)) : Prop :=
  match read_build_info (process w) with
  | None => added = [] /\ r = Panic nil_dereference
  | Some bi =>
    match zip_create_fault (faults w) "snapshot.json" with
    | Some e => added = [] /\ r = Val (Some ("snapshot: " +:+ e))
    | None =>
      match json_Marshal (collected w bi) "" "    " with
      | inr e => added = [("snapshot.json", [])] /\ r = Val (Some ("snapshot: " +:+ e))
      | inl bs =>
        match encode_fault (faults w) with
        | Some e =>
          added = [("snapshot.json", [])] /\ r = Val (Some ("snapshot: " +:+ e))
        | None =>
          exists rest,
            added = ("snapshot.json", bs) :: rest /\ trace_outcome w r rest
        end
      end
    end
  end.

(** The file at [fileName] right after [os.OpenFile] has opened it with the
    flags and the permission bits of [Full], and the world then. *)
Definition opened_file (w : World) (fileName : string) : File :=
  match files w !! fileName with
  | Some old => truncate old
  | None => new_file (Z.land ModePerm (Z.lnot (umask w)))
  end.

Definition opened (w : World) (fileName : string) : World :=
  set_files (<[fileName := opened_file w fileName]> (files w))
    (record_event
       (EvOpenFile fileName (Z.lor (Z.lor O_CREATE O_WRONLY) O_TRUNC) ModePerm) w).

(** The calls of [Full] up to the heap-dump stage succeed: the open, the
    build information, the two entries and the two writes into them. *)
Definition reaches_dump (w : World) (fileName : string)
    (bi : debug_BuildInfo) (bs : list byte) : Prop :=
  open_refused (faults w) fileName = None /\
  read_build_info (process w) = Some bi /\
  zip_create_fault (faults w) "snapshot.json" = None /\
  json_Marshal (collected w bi) "" "    " = inl bs /\
  encode_fault (faults w) = None /\
  zip_create_fault (faults w) "stack.txt" = None /\
  profile_fault (faults w) = None.

(** [os.CreateTemp] succeeds: it does not fail and the path it picks is
    free once the archive has been opened. *)
Definition temp_created (w : World) (fileName : string) : Prop :=
  createtemp_fault (faults w) = None /\
  files (opened w fileName) !! temp_path w = None.

(** Every call whose error [Full] looks at succeeds. *)
Definition checks_pass (w : World) (fileName : string)
    (bi : debug_BuildInfo) (bs : list byte) : Prop :=
  reaches_dump w fileName bi bs /\ temp_created w fileName /\
  zip_create_fault (faults w) "heap.bin" = None.

(** The temporary file once the image has been dumped into it. *)
Definition dumped_file (w : World) : File :=
  mkFile (Z.land (6 * 64) (Z.lnot (umask w))) (heap_image (runtime w)) [] false.

(** The parts of the world no call of the package writes to. *)
Definition same_surroundings (w w' : World) : Prop :=
  process w' = process w /\ runtime w' = runtime w /\ faults w' = faults w /\
  umask w' = umask w /\ temp_dir w' = temp_dir w /\ temp_rand w' = temp_rand w.

(** After [Full fileName] in [w], the second entry of the archive is
    stack.txt and holds the goroutine profile at debug level [level]. *)
Definition stack_txt_at (level : Z) (fileName : string) (w : World) : Prop :=
  exists f,
    files (fst (Full fileName w)) !! fileName = Some f /\
    f_entries f !! 1%nat =
      Some ("stack.txt", pprof_text (runtime w) "goroutine" level).

End Snapshot.

(** [f'] is [f] with the entries [added] behind those of [f]. *)
Definition grown (f f' : File) (added : list (string * list byte)) : Prop :=
  f_mode f' = f_mode f /\ f_data f' = f_data f /\
  f_entries f' = f_entries f ++ added.

(** No call past the open fails. *)
Definition quiet (fl : Faults) : Prop :=
  (forall name, zip_create_fault fl name = None) /\
  encode_fault fl = None /\ profile_fault fl = None /\
  createtemp_fault fl = None /\ seek_fault fl = None /\
  copy_fault fl = None /\ remove_fault fl = None /\
  zip_close_fault fl = None.



(** ** A process to run the package in

    The three types of the runtime are instantiated by one counter each
    ([Alloc], [NumGC]) and the Go version; the encoder prints the host name
    between braces.  The umask is 022 and the temporary directory /tmp. *)
Definition demo_json (sn : @Snapshot Z Z string) (prefix indent : string)
  : list byte + string :=
  inl (list_byte_of_string ("{" +:+ prefix +:+ indent +:+ Hostname sn +:+ "}")).

Definition demo_process : @Process string :=
  mkProcess 4242 1000 1000 ["HOME=/root"; "TERM=xterm"]
    ("/usr/local/bin/app", None) ("/srv/app", None) ("build-7", None)
    (Some "go1.22.1").

Definition demo_runtime : @Runtime Z Z :=
  mkRuntime
    (fun t => mkReading (4096 * Z.of_nat t) (Z.of_nat t) "goroutine 1 [running]:" 3)
    (fun profile debug =>
       if debug =? 0 then list_byte_of_string "<protobuf>"
       else if debug =? 1 then list_byte_of_string "goroutine profile: total 3"
       else list_byte_of_string "goroutine 1 [running]: goroutine 2 [select]: goroutine 3 [IO wait]:")
    (list_byte_of_string "go1.7 heap dump").

Definition healthy : @World Z Z string :=
  mkWorld demo_process demo_runtime no_faults 18 "/tmp" "2873114" 0 ∅ 0 [].

Definition disk_full : string := "write out.zip: no space left on device".

(** The binary was built without module support. *)
Definition no_build_info : @World Z Z string :=
  set_process
    (mkProcess 4242 1000 1000 ["HOME=/root"; "TERM=xterm"]
       ("/usr/local/bin/app", None) ("/srv/app", None) ("build-7", None) None)
    healthy.

(** The device of the archive fills up when the entry heap.bin is created. *)
Definition heap_entry_fails : @World Z Z string :=
  set_faults
    (mkFaults (fun _ => None)
       (fun name => if decide (name = "heap.bin") then Some disk_full else None)
       None None None None None None None)
    healthy.

(** The device fills up while the dump is copied into the archive. *)
Definition copy_fails : @World Z Z string :=
  set_faults
    (mkFaults (fun _ => None) (fun _ => None) None None None None
       (Some (0%nat, disk_full)) None None)
    healthy.

(** The central directory of the archive cannot be written. *)
Definition zip_close_fails : @World Z Z string :=
  set_faults
    (mkFaults (fun _ => None) (fun _ => None) None None None None None None
       (Some disk_full))
    healthy.

(** The device is full from the copy on. *)
Definition copy_and_close_fail : @World Z Z string :=
  set_faults
    (mkFaults (fun _ => None) (fun _ => None) None None None None
       (Some (0%nat, disk_full)) None (Some disk_full))
    healthy.

(** The directory of the path does not exist. *)
Definition no_such_dir : string := "open /nowhere/out.zip: no such file or directory".

Definition missing_parent : @World Z Z string :=
  set_faults
    (mkFaults
       (fun path => if decide (path = "/nowhere/out.zip") then Some no_such_dir else None)
       (fun _ => None) None None None None None None None)
    healthy.

(** An archive of an earlier run is in the way. *)
Definition stale_archive : File :=
  mkFile 420 [] [("old.txt", list_byte_of_string "old")] true.

Definition with_stale_archive : @World Z Z string :=
  set_files (<["out.zip" := stale_archive]> ∅) healthy.

(** The rewind of the temporary file fails. *)
Definition seek_fails : @World Z Z string :=
  set_faults
    (mkFaults (fun _ => None) (fun _ => None) None None None
       (Some "seek /tmp/dump2873114: invalid argument") None None None)
    healthy.

(** The temporary file cannot be removed. *)
Definition remove_fails : @World Z Z string :=
  set_faults
    (mkFaults (fun _ => None) (fun _ => None) None None None None None
       (Some "remove /tmp/dump2873114: operation not permitted") None)
    healthy.


(** The first entry of the archive cannot be created. *)
Definition first_entry_fails : @World Z Z string :=
  set_faults
    (mkFaults (fun _ => None)
       (fun name => if decide (name = "snapshot.json") then Some disk_full else None)
       None None None None None None None)
    healthy.

(** The three lookups of the operating system fail. *)
Definition lookups_fail : @World Z Z string :=
  set_process
    (mkProcess 4242 1000 1000 ["HOME=/root"; "TERM=xterm"]
       ("", Some "readlink /proc/self/exe: permission denied")
       ("", Some "getwd: no such file or directory")
       ("", Some "hostname: function not implemented")
       (Some "go1.22.1"))
    healthy.


(** * Properties *)

Section Properties.

Context {runtime_MemStats debug_GCStats debug_BuildInfo : Type}.
Variable json_Marshal :
  @Snapshot runtime_MemStats debug_GCStats debug_BuildInfo ->
  string -> string -> list byte + string.
Implicit Types w : @World runtime_MemStats debug_GCStats debug_BuildInfo.

(** ** Entries of an archive *)

Lemma write_last_snoc bs es n c :
  write_last bs (es ++ [(n, c)]) = es ++ [(n, c ++ bs)].
Proof.
  induction es as [|[n' c'] es IH]; [reflexivity|].
  cbn [app write_last]. rewrite IH.
  destruct es; reflexivity.
Qed.

Lemma grown_refl f : grown f f [].
Proof. unfold grown. rewrite app_nil_r. auto. Qed.

Lemma grown_trans f1 f2 f3 a b :
  grown f1 f2 a -> grown f2 f3 b -> grown f1 f3 (a ++ b).
Proof.
  unfold grown. intros (Hm & Hd & He) (Hm' & Hd' & He').
  rewrite Hm', Hd', He', He, Hm, Hd, app_assoc. auto.
Qed.

Lemma grown_finalize f f' a : grown f f' a -> grown f (finalize f') a.
Proof. unfold grown. auto. Qed.

Lemma grown_new_entry f n bs : grown f (write_entry bs (add_entry n f)) [(n, bs)].
Proof.
  unfold grown, write_entry, add_entry. cbn.
  rewrite write_last_snoc. auto.
Qed.

Lemma grown_add_entry f n : grown f (add_entry n f) [(n, [])].
Proof. unfold grown, add_entry. cbn. auto. Qed.

(** ** Collect *)

Lemma Collect_eq w :
  Collect w =
  match read_build_info (process w) with
  | Some bi => (set_clock (4 + clock w)%nat w, Val (collected w bi))
  | None => (set_clock (2 + clock w)%nat w, Panic nil_dereference)
  end.
Proof.
  unfold Collect, collected, bind, runtime_ReadMemStats, debug_ReadGCStats,
    debug_Stack, runtime_NumGoroutine, read_runtime, debug_ReadBuildInfo,
    deref, os_Getpid, os_Getuid, os_Getgid, os_Environ, os_Executable,
    os_Getwd, os_Hostname, ask, ret, set_clock.
  cbn.
  destruct (read_build_info (process w)); cbn; [|reflexivity].
  destruct (executable (process w)); cbn.
  destruct (getwd (process w)); cbn.
  destruct (hostname (process w)); reflexivity.
Qed.

(** ** Running the stages *)

Ltac run :=
  cbv beta iota zeta delta
    [bind ret check defer Errorf os_OpenFile File_Close os_CreateTemp
     debug_WriteHeapDump File_Seek os_Remove zip_NewWriter zw_Create zw_Close
     io_Copy json_NewEncoder Encoder_SetIndent Encoder_Encode pprof_Lookup
     Profile_WriteTo File_Fd File_Name alter_file record_event set_files
     set_tmp_pos set_clock nil_file nil_entry];
  cbn [fst snd process runtime faults umask temp_dir temp_rand clock files
       tmp_pos log e_file e_name enc_out enc_prefix enc_indent].

Ltac sim :=
  cbv beta iota zeta;
  cbn [fst snd process runtime faults umask temp_dir temp_rand clock files
       tmp_pos log e_file e_name enc_out enc_prefix enc_indent Z.eqb].

Ltac lookups :=
  repeat first
    [ rewrite lookup_alter_eq
    | rewrite lookup_insert_eq
    | rewrite lookup_alter_ne by congruence
    | rewrite lookup_insert_ne by congruence
    | rewrite lookup_delete_ne by congruence ];
  cbn [fmap option_fmap option_map].

Lemma dump_stage_out zw w f :
  files w !! zw = Some f ->
  exists f' added,
    files (fst (dump_stage zw w)) !! zw = Some f' /\ grown f f' added /\
    dump_outcome w (snd (dump_stage zw w)) added.
Proof.
  intros Hf. unfold dump_stage, dump_outcome, copied. run.
  rewrite decide_True by reflexivity.
  change (temp_dir w +:+ "/" +:+ "dump" +:+ temp_rand w) with (temp_path w).
  destruct (createtemp_fault (faults w)) as [e|] eqn:Hct; sim.
  { exists f, []. auto using grown_refl. }
  destruct (files w !! temp_path w) as [g|] eqn:Htmp; sim.
  { exists f, []. auto using grown_refl. }
  assert (temp_path w <> zw) as Hne by congruence.
  destruct (seek_fault (faults w)) as [e|]; sim.
  all: destruct (zip_create_fault (faults w) "heap.bin") as [e'|]; sim.
  1, 3: exists f, []; lookups; auto using grown_refl.
  all: lookups.
  all: destruct (copy_fault (faults w)) as [[n e0]|]; sim.
  all: destruct (remove_fault (faults w)) as [e1|]; sim; lookups; sim.
  all: destruct (zip_close_fault (faults w)) as [e2|]; sim; lookups.
  all: rewrite Hf; cbn [fmap option_fmap option_map].
  all: eexists _, _; split; [reflexivity|].
  all: split; [|split; reflexivity].
  all: try apply grown_finalize; apply grown_new_entry.
Qed.


Lemma dump_outcome_same w w' r added :
  faults w' = faults w -> runtime w' = runtime w ->
  temp_path w' = temp_path w ->
  (files w' !! temp_path w = None <-> files w !! temp_path w = None) ->
  dump_outcome w' r added -> dump_outcome w r added.
Proof.
  unfold dump_outcome, copied. intros -> -> -> Hiff.
  destruct (files w' !! temp_path w), (files w !! temp_path w); try exact id.
  - destruct Hiff as [_ H]. discriminate H. reflexivity.
  - destruct Hiff as [H _]. discriminate H. reflexivity.
Qed.

Lemma trace_outcome_same w w' r added :
  faults w' = faults w -> runtime w' = runtime w ->
  temp_path w' = temp_path w ->
  (files w' !! temp_path w = None <-> files w !! temp_path w = None) ->
  trace_outcome w' r added -> trace_outcome w r added.
Proof.
  unfold trace_outcome. intros Hf Hr Ht Hiff. rewrite Hf, Hr.
  destruct (zip_create_fault (faults w) "stack.txt"); [exact id|].
  destruct (profile_fault (faults w)); [exact id|].
  intros (rest & -> & Hd). exists rest. split; [reflexivity|].
  eapply dump_outcome_same; eauto.
Qed.

Lemma trace_stage_out zw w f :
  files w !! zw = Some f ->
  exists f' added,
    files (fst (trace_stage zw w)) !! zw = Some f' /\ grown f f' added /\
    trace_outcome w (snd (trace_stage zw w)) added.
Proof.
  intros Hf. unfold trace_stage, trace_outcome. run.
  destruct (zip_create_fault (faults w) "stack.txt") as [e|]; sim.
  { exists f, []. auto using grown_refl. }
  destruct (profile_fault (faults w)) as [e|]; sim.
  { eexists _, _. lookups. rewrite Hf. cbn [fmap option_fmap option_map].
    split; [reflexivity|]. split; [apply grown_add_entry|]. auto. }
  match goal with
  | |- context [dump_stage zw ?W] =>
    destruct (dump_stage_out zw W
                (write_entry (pprof_text (runtime w) "goroutine" 1)
                   (add_entry "stack.txt" f)))
      as (f' & rest & Hl & Hg & Ho)
  end.
  { sim. lookups. rewrite Hf. reflexivity. }
  exists f', (("stack.txt", pprof_text (runtime w) "goroutine" 1) :: rest).
  split; [exact Hl|]. split.
  { exact (grown_trans _ _ _ _ _ (grown_new_entry _ _ _) Hg). }
  exists rest. split; [reflexivity|].
  eapply dump_outcome_same; [..|exact Ho]; try reflexivity.
  sim. rewrite !lookup_alter_None. reflexivity.
Qed.

Lemma bind_Collect {B : Type} (k : Snapshot -> M B) w :
  bind Collect k w =
  match read_build_info (process w) with
  | Some bi => k (collected w bi) (set_clock (4 + clock w)%nat w)
  | None => (set_clock (2 + clock w)%nat w, Panic nil_dereference)
  end.
Proof.
  unfold bind. rewrite Collect_eq.
  destruct (read_build_info (process w)); reflexivity.
Qed.

Lemma snapshot_stage_out zw w f :
  files w !! zw = Some f ->
  exists f' added,
    files (fst (snapshot_stage json_Marshal zw w)) !! zw = Some f' /\
    grown f f' added /\
    snapshot_outcome json_Marshal w (snd (snapshot_stage json_Marshal zw w)) added.
Proof.
  intros Hf. unfold snapshot_stage, snapshot_outcome.
  rewrite !bind_Collect.
  destruct (read_build_info (process w)) as [bi|]; sim.
  2: { exists f, []. auto using grown_refl. }
  run.
  destruct (zip_create_fault (faults w) "snapshot.json") as [e|]; sim.
  { exists f, []. auto using grown_refl. }
  destruct (json_Marshal (collected w bi) "" "    ") as [bs|e]; sim.
  2: { eexists _, _. lookups. rewrite Hf. cbn [fmap option_fmap option_map].
       split; [reflexivity|]. split; [apply grown_add_entry|]. auto. }
  destruct (encode_fault (faults w)) as [e|]; sim.
  { eexists _, _. lookups. rewrite Hf. cbn [fmap option_fmap option_map].
    split; [reflexivity|]. split; [apply grown_add_entry|]. auto. }
  match goal with
  | |- context [trace_stage zw ?W] =>
    destruct (trace_stage_out zw W (write_entry bs (add_entry "snapshot.json" f)))
      as (f' & rest & Hl & Hg & Ho)
  end.
  { sim. lookups. rewrite Hf. reflexivity. }
  exists f', (("snapshot.json", bs) :: rest).
  split; [exact Hl|]. split.
  { exact (grown_trans _ _ _ _ _ (grown_new_entry _ _ _) Hg). }
  exists rest. split; [reflexivity|].
  eapply trace_outcome_same; [..|exact Ho]; try reflexivity.
  sim. rewrite !lookup_alter_None. reflexivity.
Qed.

Lemma Full_stages fileName :
  Full json_Marshal fileName =
  bind (os_OpenFile fileName (Z.lor (Z.lor O_CREATE O_WRONLY) O_TRUNC) ModePerm)
    (fun x => let '(f, err) := x in
       check err "open: "
         (defer (File_Close f)
            (bind (zip_NewWriter f) (fun zw => snapshot_stage json_Marshal zw)))).
Proof. reflexivity. Qed.

Lemma Full_flags :
  has_flag O_CREATE (Z.lor (Z.lor O_CREATE O_WRONLY) O_TRUNC) = true /\
  has_flag O_WRONLY (Z.lor (Z.lor O_CREATE O_WRONLY) O_TRUNC) = true /\
  has_flag O_TRUNC (Z.lor (Z.lor O_CREATE O_WRONLY) O_TRUNC) = true.
Proof. repeat split; reflexivity. Qed.

Lemma Full_out w fileName :
  open_refused (faults w) fileName = None ->
  exists f' added,
    files (fst (Full json_Marshal fileName w)) !! fileName = Some f' /\
    grown (opened_file w fileName) f' added /\
    snapshot_outcome json_Marshal (opened w fileName)
      (snd (Full json_Marshal fileName w)) added.
Proof.
  intros Ho.
  destruct (snapshot_stage_out fileName (opened w fileName) (opened_file w fileName))
    as (f' & added & Hl & Hg & Hout).
  { unfold opened. run. apply lookup_insert_eq. }
  exists f', added. rewrite Full_stages. revert Hl Hg Hout.
  unfold opened, opened_file. run. rewrite Ho.
  destruct Full_flags as (-> & _ & ->).
  destruct (files w !! fileName) as [old|]; sim.
  all: match goal with
       | |- context [snapshot_stage _ ?zw ?W] =>
         destruct (snapshot_stage json_Marshal zw W) as [w' r]
       end; sim; auto.
Qed.

(** ** The log only grows *)

Ltac grows := rewrite <- ?app_assoc; eexists; reflexivity.

Lemma dump_stage_log zw w :
  exists evs, log (fst (dump_stage zw w)) = log w ++ evs.
Proof.
  unfold dump_stage. run. rewrite decide_True by reflexivity.
  destruct (createtemp_fault (faults w)); sim; [grows|].
  destruct (files w !! _); sim; [grows|].
  destruct (seek_fault (faults w)); sim.
  all: destruct (zip_create_fault (faults w) "heap.bin"); sim; [grows|].
  all: destruct (copy_fault (faults w)) as [[n e0]|]; sim.
  all: destruct (remove_fault (faults w)); sim.
  all: repeat match goal with
       | |- context [match ?m !! ?k with _ => _ end] => destruct (m !! k); sim
       end.
  all: destruct (zip_close_fault (faults w)); sim; grows.
Qed.

Lemma trace_stage_log zw w :
  exists evs, log (fst (trace_stage zw w)) = log w ++ evs.
Proof.
  unfold trace_stage. run.
  destruct (zip_create_fault (faults w) "stack.txt"); sim; [grows|].
  destruct (profile_fault (faults w)); sim; [grows|].
  match goal with
  | |- context [dump_stage zw ?W] => destruct (dump_stage_log zw W) as [evs ->]
  end.
  sim. grows.
Qed.

Lemma snapshot_stage_log zw w :
  exists evs, log (fst (snapshot_stage json_Marshal zw w)) = log w ++ evs.
Proof.
  unfold snapshot_stage. rewrite bind_Collect.
  destruct (read_build_info (process w)) as [bi|]; sim; [|exists []; run; symmetry; apply app_nil_r].
  run.
  destruct (zip_create_fault (faults w) "snapshot.json"); sim; [grows|].
  destruct (json_Marshal (collected w bi) "" "    "); sim; [|grows].
  destruct (encode_fault (faults w)); sim; [grows|].
  match goal with
  | |- context [trace_stage zw ?W] => destruct (trace_stage_log zw W) as [evs ->]
  end.
  sim. grows.
Qed.

Lemma Full_log w fileName :
  exists evs,
    log (fst (Full json_Marshal fileName w)) =
    log w ++
    EvOpenFile fileName (Z.lor (Z.lor O_CREATE O_WRONLY) O_TRUNC) ModePerm :: evs.
Proof.
  rewrite Full_stages. run.
  destruct (open_refused (faults w) fileName); sim; [eexists; reflexivity|].
  destruct Full_flags as (-> & _ & ->).
  destruct (files w !! fileName); sim.
  all: match goal with
       | |- context [snapshot_stage _ ?zw ?W] =>
         destruct (snapshot_stage_log zw W) as [evs Hevs];
         destruct (snapshot_stage json_Marshal zw W) as [w' r]
       end; sim; cbn [fst] in Hevs; rewrite Hevs; sim.
  all: rewrite <- !app_assoc; eexists; reflexivity.
Qed.

(** ** Reading the outcomes *)

Lemma opened_file_empty w fileName :
  f_data (opened_file w fileName) = [] /\ f_entries (opened_file w fileName) = [].
Proof. unfold opened_file. destruct (files w !! fileName); auto. Qed.

Lemma dump_outcome_nil w added :
  dump_outcome w (Val None) added -> added = [("heap.bin", copied w)].
Proof.
  unfold dump_outcome.
  destruct (createtemp_fault (faults w)); [intros [_ H]; discriminate H|].
  destruct (files w !! temp_path w); [intros [_ H]; discriminate H|].
  destruct (zip_create_fault (faults w) "heap.bin"); [intros [_ H]; discriminate H|].
  intros [H _]. exact H.
Qed.

Lemma trace_outcome_nil w added :
  trace_outcome w (Val None) added ->
  added = [("stack.txt", pprof_text (runtime w) "goroutine" 1);
           ("heap.bin", copied w)].
Proof.
  unfold trace_outcome.
  destruct (zip_create_fault (faults w) "stack.txt"); [intros [_ H]; discriminate H|].
  destruct (profile_fault (faults w)); [intros [_ H]; discriminate H|].
  intros (rest & -> & H). apply dump_outcome_nil in H. rewrite H. reflexivity.
Qed.

Lemma snapshot_outcome_nil w added :
  snapshot_outcome json_Marshal w (Val None) added ->
  exists bi bs,
    read_build_info (process w) = Some bi /\
    json_Marshal (collected w bi) "" "    " = inl bs /\
    added = [("snapshot.json", bs);
             ("stack.txt", pprof_text (runtime w) "goroutine" 1);
             ("heap.bin", copied w)].
Proof.
  unfold snapshot_outcome.
  destruct (read_build_info (process w)) as [bi|]; [|intros [_ H]; discriminate H].
  destruct (zip_create_fault (faults w) "snapshot.json"); [intros [_ H]; discriminate H|].
  destruct (json_Marshal (collected w bi) "" "    ") as [bs|] eqn:Hj;
    [|intros [_ H]; discriminate H].
  destruct (encode_fault (faults w)); [intros [_ H]; discriminate H|].
  intros (rest & -> & H). apply trace_outcome_nil in H. rewrite H.
  exists bi, bs. auto.
Qed.

(** ** Collect *)

Lemma Collect_returns w bi :
  read_build_info (process w) = Some bi ->
  Collect w = (set_clock (4 + clock w)%nat w, Val (collected w bi)).
Proof. intros H. rewrite Collect_eq, H. reflexivity. Qed.

(** C1.  [Collect] does not absorb the failure of the build-information
    lookup: in every process whose binary carries no build information,
    [debug.ReadBuildInfo] answers a nil pointer, line 37 dereferences it and
    [Collect] panics instead of returning a record. *)
Theorem Collect_panics_without_build_info w :
  read_build_info (process w) = None ->
  snd (Collect w) = Panic nil_dereference.
Proof. intros H. rewrite Collect_eq, H. reflexivity. Qed.

(** C9.  Of two calls of [Collect] in a row, when the first returns a
    record the second returns one too, and the two agree on [Pid], [Uid],
    [Gid], [Executable], [Wd], [Hostname] and [BuildInfo]; the memory
    statistics, the collector statistics and the number of goroutines are
    readings of the runtime at different instants. *)
Theorem Collect_twice_same_identity w w1 s1 :
  Collect w = (w1, Val s1) ->
  exists w2 s2,
    Collect w1 = (w2, Val s2) /\
    Pid s2 = Pid s1 /\ Uid s2 = Uid s1 /\ Gid s2 = Gid s1 /\
    Executable s2 = Executable s1 /\ Wd s2 = Wd s1 /\
    Hostname s2 = Hostname s1 /\ BuildInfo s2 = BuildInfo s1 /\
    Memory s1 = mem_stats (readings (runtime w) (clock w)) /\
    Memory s2 = mem_stats (readings (runtime w) (4 + clock w)%nat) /\
    GC s1 = gc_stats (readings (runtime w) (1 + clock w)%nat) /\
    GC s2 = gc_stats (readings (runtime w) (5 + clock w)%nat) /\
    NumGoRoutines s1 = num_goroutine (readings (runtime w) (3 + clock w)%nat) /\
    NumGoRoutines s2 = num_goroutine (readings (runtime w) (7 + clock w)%nat).
Proof.
  rewrite Collect_eq.
  destruct (read_build_info (process w)) as [bi|] eqn:Hbi; [|discriminate].
  intros H. injection H as <- <-.
  exists (set_clock (4 + clock (set_clock (4 + clock w)%nat w))%nat
            (set_clock (4 + clock w)%nat w)),
         (collected (set_clock (4 + clock w)%nat w) bi).
  split; [apply Collect_returns; exact Hbi|].
  cbn. repeat split; reflexivity.
Qed.

(** ** Full *)

Lemma Full_refused w fileName e :
  open_refused (faults w) fileName = Some e ->
  Full json_Marshal fileName w =
  (record_event
     (EvOpenFile fileName (Z.lor (Z.lor O_CREATE O_WRONLY) O_TRUNC) ModePerm) w,
   Val (Some ("open: " +:+ e))).
Proof. intros H. rewrite Full_stages. run. rewrite H. reflexivity. Qed.

(** [Full] returns nil exactly when none of the calls whose error it looks
    at fails; what [File.Seek], [io.Copy], [os.Remove] and [zw.Close]
    answer has no part in it. *)
Lemma Full_returns_nil_iff w fileName :
  snd (Full json_Marshal fileName w) = Val None <->
  open_refused (faults w) fileName = None /\
  (exists bi bs,
     read_build_info (process w) = Some bi /\
     json_Marshal (collected w bi) "" "    " = inl bs) /\
  zip_create_fault (faults w) "snapshot.json" = None /\
  encode_fault (faults w) = None /\
  zip_create_fault (faults w) "stack.txt" = None /\
  profile_fault (faults w) = None /\
  createtemp_fault (faults w) = None /\
  files (opened w fileName) !! temp_path w = None /\
  zip_create_fault (faults w) "heap.bin" = None.
Proof.
  destruct (open_refused (faults w) fileName) as [e|] eqn:Ho.
  { rewrite (Full_refused w fileName e Ho). cbn [snd].
    split; [discriminate|]. intros [H _]. discriminate H. }
  destruct (Full_out w fileName Ho) as (f' & added & _ & _ & Hout).
  revert Hout. generalize (snd (Full json_Marshal fileName w)). intros r.
  unfold snapshot_outcome, trace_outcome, dump_outcome.
  change (faults (opened w fileName)) with (faults w).
  change (process (opened w fileName)) with (process w).
  change (temp_path (opened w fileName)) with (temp_path w).
  destruct (read_build_info (process w)) as [bi|].
  2: { intros [_ ->]. split; [discriminate|].
       intros (_ & (? & ? & H & _) & _). discriminate H. }
  change (collected (opened w fileName) bi) with (collected w bi).
  destruct (zip_create_fault (faults w) "snapshot.json").
  { intros [_ ->]. split; [discriminate|]. intros (_ & _ & H & _). discriminate H. }
  destruct (json_Marshal (collected w bi) "" "    ") as [bs|] eqn:Hj.
  2: { intros [_ ->]. split; [discriminate|].
       intros (_ & (bi' & bs' & H & H') & _).
       injection H as <-. rewrite Hj in H'. discriminate H'. }
  destruct (encode_fault (faults w)).
  { intros [_ ->]. split; [discriminate|]. intros (_ & _ & _ & H & _). discriminate H. }
  intros (rest & _ & Hout). revert Hout.
  destruct (zip_create_fault (faults w) "stack.txt").
  { intros [_ ->]. split; [discriminate|].
    intros (_ & _ & _ & _ & H & _). discriminate H. }
  destruct (profile_fault (faults w)).
  { intros [_ ->]. split; [discriminate|].
    intros (_ & _ & _ & _ & _ & H & _). discriminate H. }
  intros (rest' & _ & Hout). revert Hout.
  destruct (createtemp_fault (faults w)).
  { intros [_ ->]. split; [discriminate|].
    intros (_ & _ & _ & _ & _ & _ & H & _). discriminate H. }
  destruct (files (opened w fileName) !! temp_path w).
  { intros [_ ->]. split; [discriminate|].
    intros (_ & _ & _ & _ & _ & _ & _ & H & _). discriminate H. }
  destruct (zip_create_fault (faults w) "heap.bin").
  { intros [_ ->]. split; [discriminate|].
    intros (_ & _ & _ & _ & _ & _ & _ & _ & H). discriminate H. }
  intros [_ ->]. split; [|reflexivity]. intros _.
  repeat split; eauto.
Qed.

(** When no call fails, [Full] returns nil over a finalized archive of the
    three entries, in the order of their creation, the temporary file is
    gone again, and the calls are those of lines 65-109, each once. *)
Lemma Full_when_nothing_fails w fileName bi bs :
  open_refused (faults w) fileName = None ->
  read_build_info (process w) = Some bi ->
  json_Marshal (collected w bi) "" "    " = inl bs ->
  (forall name, zip_create_fault (faults w) name = None) ->
  encode_fault (faults w) = None ->
  profile_fault (faults w) = None ->
  createtemp_fault (faults w) = None ->
  seek_fault (faults w) = None ->
  copy_fault (faults w) = None ->
  remove_fault (faults w) = None ->
  zip_close_fault (faults w) = None ->
  files (opened w fileName) !! temp_path w = None ->
  snd (Full json_Marshal fileName w) = Val None /\
  files (fst (Full json_Marshal fileName w)) =
    <[fileName :=
        mkFile (f_mode (opened_file w fileName)) []
          [("snapshot.json", bs);
           ("stack.txt", pprof_text (runtime w) "goroutine" 1);
           ("heap.bin", heap_image (runtime w))]
          true]> (files w) /\
  log (fst (Full json_Marshal fileName w)) =
    log w ++
    [EvOpenFile fileName (Z.lor (Z.lor O_CREATE O_WRONLY) O_TRUNC) ModePerm;
     EvZipCreate fileName "snapshot.json";
     EvEncode "snapshot.json" "" "    ";
     EvZipCreate fileName "stack.txt";
     EvWriteProfile "goroutine" "stack.txt" 1;
     EvCreateTemp "" "dump";
     EvWriteHeapDump (temp_path w);
     EvSeek (temp_path w) 0 0;
     EvZipCreate fileName "heap.bin";
     EvCopy "heap.bin" (temp_path w);
     EvClose (temp_path w);
     EvRemove (temp_path w);
     EvZipClose fileName;
     EvClose fileName].
Proof.
  intros Ho Hbi Hj Hz He Hp Hct Hs Hcp Hrm Hzc Htmp.
  assert (temp_path w <> fileName) as Hne.
  { intros Heq. revert Htmp. unfold opened. run. rewrite Heq.
    rewrite lookup_insert_eq. discriminate. }
  assert (files w !! temp_path w = None) as Hfree.
  { revert Htmp. unfold opened. run. rewrite lookup_insert_ne by congruence.
    exact id. }
  rewrite Full_stages. unfold snapshot_stage, trace_stage, dump_stage, opened_file.
  run. rewrite Ho. destruct Full_flags as (-> & _ & ->).
  destruct (files w !! fileName) as [old|] eqn:Hold; sim.
  all: rewrite Collect_eq; run; rewrite Hbi; sim.
  all: change (collected _ bi) with (collected w bi).
  all: unfold temp_path in Hfree, Hne.
  all: repeat (first [ rewrite Hz | rewrite Hj | rewrite He | rewrite Hp
                     | rewrite Hct | rewrite Hs | rewrite Hcp | rewrite Hrm
                     | rewrite Hzc | rewrite Hfree
                     | rewrite decide_True by reflexivity
                     | progress lookups ]; sim).
  all: fold (temp_path w) in Hne |- *.
  all: split; [reflexivity|]; split; [|rewrite <- !app_assoc; reflexivity].
  all: apply map_eq; intros k.
  all: destruct (decide (k = fileName)) as [->|Hk];
         [|destruct (decide (k = temp_path w)) as [->|Hk']].
  all: lookups; rewrite ?lookup_delete_eq; try reflexivity.
  all: symmetry; exact Hfree.
Qed.

(** ** The paths of [Full] through the heap-dump stage *)

Ltac use_fact :=
  match goal with
  | H : ?x = _ |- context [match ?x with _ => _ end] => rewrite H
  end.

Ltac walk :=
  repeat (first [ use_fact
                | rewrite decide_True by reflexivity
                | progress lookups ]; sim).

Lemma temp_created_free w fileName :
  temp_created w fileName ->
  temp_path w <> fileName /\ files w !! temp_path w = None.
Proof.
  intros [_ Htmp]. revert Htmp. unfold opened. run.
  destruct (decide (temp_path w = fileName)) as [->|Hne].
  - rewrite lookup_insert_eq. discriminate.
  - rewrite lookup_insert_ne by congruence. auto.
Qed.

(** C2.  The temporary file outlives every call that fails at the entry
    heap.bin: the heap-dump stage is reached, [os.CreateTemp] creates the
    file, [zw.Create] fails, and [Full] returns the dump error from line
    102 with the file, the image in it, still there; [os.Remove] is only
    called on the path through line 107. *)
Theorem Full_leaves_temp_file_when_heap_entry_fails w fileName bi bs e :
  reaches_dump json_Marshal w fileName bi bs ->
  temp_created w fileName ->
  zip_create_fault (faults w) "heap.bin" = Some e ->
  snd (Full json_Marshal fileName w) = Val (Some ("dump: " +:+ e)) /\
  files (fst (Full json_Marshal fileName w)) !! temp_path w = Some (dumped_file w).
Proof.
  intros (Ho & Hbi & Hz1 & Hj & He & Hz2 & Hp) Htc Hz3.
  destruct (temp_created_free w fileName Htc) as [Hne Hfree].
  destruct Htc as [Hct _].
  rewrite Full_stages.
  unfold snapshot_stage, trace_stage, dump_stage, opened_file, dumped_file.
  run. rewrite Ho. destruct Full_flags as (-> & _ & ->).
  destruct (files w !! fileName) as [old|] eqn:Hold; sim.
  all: rewrite Collect_eq; run; rewrite Hbi; sim.
  all: change (collected _ bi) with (collected w bi).
  all: unfold temp_path in Hfree, Hne.
  all: walk.
  all: destruct (seek_fault (faults w)); sim; walk.
  all: split; reflexivity.
Qed.

Lemma Full_past_checks w fileName bi bs :
  checks_pass json_Marshal w fileName bi bs ->
  snd (Full json_Marshal fileName w) = Val None /\
  files (fst (Full json_Marshal fileName w)) !! fileName =
    Some (mkFile (f_mode (opened_file w fileName)) []
            [("snapshot.json", bs);
             ("stack.txt", pprof_text (runtime w) "goroutine" 1);
             ("heap.bin", copied w)]
            (match zip_close_fault (faults w) with
             | Some _ => false
             | None => true
             end)) /\
  files (fst (Full json_Marshal fileName w)) !! temp_path w =
    match remove_fault (faults w) with
    | Some _ => Some (dumped_file w)
    | None => None
    end.
Proof.
  intros ((Ho & Hbi & Hz1 & Hj & He & Hz2 & Hp) & Htc & Hz3).
  destruct (temp_created_free w fileName Htc) as [Hne Hfree].
  destruct Htc as [Hct _].
  rewrite Full_stages.
  unfold snapshot_stage, trace_stage, dump_stage, opened_file, dumped_file, copied.
  run. rewrite Ho. destruct Full_flags as (-> & _ & ->).
  destruct (files w !! fileName) as [old|] eqn:Hold; sim.
  all: rewrite Collect_eq; run; rewrite Hbi; sim.
  all: change (collected _ bi) with (collected w bi).
  all: unfold temp_path in Hfree, Hne.
  all: walk.
  all: destruct (seek_fault (faults w)); sim; walk.
  all: destruct (copy_fault (faults w)) as [[n e0]|]; sim; walk.
  all: destruct (remove_fault (faults w)); sim; walk.
  all: destruct (zip_close_fault (faults w)); sim; walk.
  all: unfold temp_path; walk; rewrite ?lookup_delete_eq.
  all: repeat split; reflexivity.
Qed.

(** C3.  A copy that fails is not a dump error: when every call whose
    error [Full] looks at succeeds and [io.Copy] stops after at most [n]
    bytes with an error, line 105 drops the error and [Full] returns nil
    over an entry heap.bin of at most [n] bytes. *)
Theorem Full_returns_nil_when_copy_fails w fileName bi bs n e :
  checks_pass json_Marshal w fileName bi bs ->
  copy_fault (faults w) = Some (n, e) ->
  snd (Full json_Marshal fileName w) = Val None /\
  exists f heap,
    files (fst (Full json_Marshal fileName w)) !! fileName = Some f /\
    f_entries f !! 2%nat = Some ("heap.bin", heap) /\
    (length heap <= n)%nat.
Proof.
  intros Hc Hcp. destruct (Full_past_checks w fileName bi bs Hc) as (Hr & Hf & _).
  split; [exact Hr|]. eexists _, (copied w). split; [exact Hf|].
  split; [reflexivity|]. unfold copied. rewrite Hcp, length_take. lia.
Qed.

(** C4.  A failure of the last stage is not returned: when every call whose
    error [Full] looks at succeeds and [zw.Close] fails, line 109 drops
    the error and [Full] returns nil over an archive that was never
    finalized. *)
Theorem Full_returns_nil_when_zip_close_fails w fileName bi bs e :
  checks_pass json_Marshal w fileName bi bs ->
  zip_close_fault (faults w) = Some e ->
  snd (Full json_Marshal fileName w) = Val None /\
  exists f,
    files (fst (Full json_Marshal fileName w)) !! fileName = Some f /\
    f_finalized f = false.
Proof.
  intros Hc Hzc. destruct (Full_past_checks w fileName bi bs Hc) as (Hr & Hf & _).
  split; [exact Hr|]. eexists. split; [exact Hf|].
  cbn. rewrite Hzc. reflexivity.
Qed.

(** C6.  A call that returns nil may leave less than the archive: when the
    copy fails before the first byte and [zw.Close] fails too, as on a
    device that is full by then, [Full] returns nil over an archive without
    central directory whose entry heap.bin is empty. *)
Theorem Full_returns_nil_over_incomplete_archive w fileName bi bs e e' :
  checks_pass json_Marshal w fileName bi bs ->
  copy_fault (faults w) = Some (0%nat, e) ->
  zip_close_fault (faults w) = Some e' ->
  snd (Full json_Marshal fileName w) = Val None /\
  files (fst (Full json_Marshal fileName w)) !! fileName =
    Some (mkFile (f_mode (opened_file w fileName)) []
            [("snapshot.json", bs);
             ("stack.txt", pprof_text (runtime w) "goroutine" 1);
             ("heap.bin", [])]
            false).
Proof.
  intros Hc Hcp Hzc. destruct (Full_past_checks w fileName bi bs Hc) as (Hr & Hf & _).
  split; [exact Hr|]. rewrite Hf. unfold copied. rewrite Hcp, Hzc. reflexivity.
Qed.

(** C8.  When the operating system refuses to open the path (its directory
    does not exist, the caller may not write there), [Full] returns the
    error "open: " followed by the message of that refusal, having made no
    other call: the file system is as it was, so no file was created. *)
Theorem Full_open_refused w fileName e :
  open_refused (faults w) fileName = Some e ->
  snd (Full json_Marshal fileName w) = Val (Some ("open: " +:+ e)) /\
  files (fst (Full json_Marshal fileName w)) = files w /\
  log (fst (Full json_Marshal fileName w)) =
    log w ++ [EvOpenFile fileName (Z.lor (Z.lor O_CREATE O_WRONLY) O_TRUNC) ModePerm].
Proof.
  intros H. rewrite (Full_refused w fileName e H). cbn. auto.
Qed.

(** C10.  The first call of [Full] is [os.OpenFile] with the flags
    [O_CREATE|O_WRONLY|O_TRUNC] and the permission bits 0777.  When the
    operating system lets it through, a path that held no file holds one
    whose permission bits are 0777 less the bits of the umask, and a file
    that was there keeps its bits and, once [Full] has returned nil, holds
    nothing but the three entries this call created. *)
Theorem Full_creates_or_truncates w fileName :
  open_refused (faults w) fileName = None ->
  (exists evs,
     log (fst (Full json_Marshal fileName w)) =
     log w ++ EvOpenFile fileName (Z.lor (Z.lor O_CREATE O_WRONLY) O_TRUNC) 511 :: evs) /\
  Z.lor (Z.lor O_CREATE O_WRONLY) O_TRUNC = 0x241 /\
  (files w !! fileName = None ->
   exists f,
     files (fst (Full json_Marshal fileName w)) !! fileName = Some f /\
     f_mode f = Z.land 511 (Z.lnot (umask w))) /\
  (forall old,
     files w !! fileName = Some old ->
     snd (Full json_Marshal fileName w) = Val None ->
     exists f json prof heap,
       files (fst (Full json_Marshal fileName w)) !! fileName = Some f /\
       f_mode f = f_mode old /\ f_data f = [] /\
       f_entries f = [("snapshot.json", json); ("stack.txt", prof); ("heap.bin", heap)]).
Proof.
  intros Ho. split; [exact (Full_log w fileName)|]. split; [reflexivity|].
  destruct (Full_out w fileName Ho) as (f' & added & Hl & (Hm & Hd & He) & Hout).
  destruct (opened_file_empty w fileName) as [Hd0 He0].
  split.
  - intros Hnone. exists f'. split; [exact Hl|].
    rewrite Hm. unfold opened_file. rewrite Hnone. reflexivity.
  - intros old Hold Hnil. rewrite Hnil in Hout.
    apply snapshot_outcome_nil in Hout as (bi & bs & _ & _ & ->).
    eexists f', _, _, _. split; [exact Hl|].
    rewrite Hm, Hd, He, Hd0, He0. unfold opened_file. rewrite Hold.
    repeat split; reflexivity.
Qed.

(** C5, as the code has it.  Once the snapshot stage is through, a failure
    to create the entry stack.txt or to write the profile makes [Full]
    return the error "trace: " followed by the cause, and otherwise the
    second entry of the archive is stack.txt and holds what the goroutine
    profile writes at debug level 1. *)
Theorem Full_trace_stage w fileName bi bs :
  open_refused (faults w) fileName = None ->
  read_build_info (process w) = Some bi ->
  zip_create_fault (faults w) "snapshot.json" = None ->
  json_Marshal (collected w bi) "" "    " = inl bs ->
  encode_fault (faults w) = None ->
  (forall e, zip_create_fault (faults w) "stack.txt" = Some e ->
     snd (Full json_Marshal fileName w) = Val (Some ("trace: " +:+ e))) /\
  (forall e, zip_create_fault (faults w) "stack.txt" = None ->
     profile_fault (faults w) = Some e ->
     snd (Full json_Marshal fileName w) = Val (Some ("trace: " +:+ e))) /\
  (zip_create_fault (faults w) "stack.txt" = None ->
   profile_fault (faults w) = None ->
   stack_txt_at json_Marshal 1 fileName w).
Proof.
  intros Ho Hbi Hc Hj He.
  destruct (Full_out w fileName Ho) as (f' & added & Hl & (_ & _ & Hen) & Hout).
  destruct (opened_file_empty w fileName) as [_ He0]. rewrite He0 in Hen.
  unfold snapshot_outcome, opened in Hout. cbn in Hout.
  rewrite Hbi, Hc in Hout.
  change (collected _ bi) with (collected w bi) in Hout.
  rewrite Hj, He in Hout. destruct Hout as (rest & -> & Hout).
  unfold trace_outcome in Hout. cbn in Hout.
  repeat split.
  - intros e H. rewrite H in Hout. apply Hout.
  - intros e H H'. rewrite H, H' in Hout. apply Hout.
  - intros H H'. rewrite H, H' in Hout. destruct Hout as (rest' & -> & _).
    exists f'. split; [exact Hl|]. rewrite Hen. reflexivity.
Qed.
(** ** What the stages leave alone *)

Ltac leaf f Hf :=
  split; [repeat split|];
  split; [reflexivity|];
  split; [intros k Hk1 Hk2; lookups; reflexivity|];
  intros f' Hl Hr; revert Hl; lookups;
  rewrite Hf; cbn [fmap option_fmap option_map];
  intros Heq; injection Heq as <-;
  first [reflexivity | exfalso; apply Hr; reflexivity].

Lemma dump_stage_frame zw w f :
  files w !! zw = Some f ->
  same_surroundings w (fst (dump_stage zw w)) /\
  clock (fst (dump_stage zw w)) = clock w /\
  (forall k, k <> zw -> k <> temp_path w ->
     files (fst (dump_stage zw w)) !! k = files w !! k) /\
  (forall f', files (fst (dump_stage zw w)) !! zw = Some f' ->
     snd (dump_stage zw w) <> Val None -> f_finalized f' = f_finalized f).
Proof.
  intros Hf. unfold dump_stage, same_surroundings, temp_path. run.
  rewrite decide_True by reflexivity.
  destruct (createtemp_fault (faults w)) as [e|]; sim; [leaf f Hf|].
  destruct (files w !! (temp_dir w +:+ "/" +:+ "dump" +:+ temp_rand w))
    as [g|] eqn:Htmp; sim; [leaf f Hf|].
  assert (temp_dir w +:+ "/" +:+ "dump" +:+ temp_rand w <> zw) as Hne by congruence.
  destruct (seek_fault (faults w)); sim.
  all: destruct (zip_create_fault (faults w) "heap.bin"); sim; [leaf f Hf|].
  all: lookups.
  all: destruct (copy_fault (faults w)) as [[n e0]|]; sim.
  all: destruct (remove_fault (faults w)); sim; lookups; sim.
  all: destruct (zip_close_fault (faults w)); sim.
  all: leaf f Hf.
Qed.

Lemma same_surroundings_trans w1 w2 w3 :
  same_surroundings w1 w2 -> same_surroundings w2 w3 -> same_surroundings w1 w3.
Proof.
  unfold same_surroundings.
  intros (-> & -> & -> & -> & -> & ->) (-> & -> & -> & -> & -> & ->).
  repeat split.
Qed.

Lemma trace_stage_frame zw w f :
  files w !! zw = Some f ->
  same_surroundings w (fst (trace_stage zw w)) /\
  clock (fst (trace_stage zw w)) = clock w /\
  (forall k, k <> zw -> k <> temp_path w ->
     files (fst (trace_stage zw w)) !! k = files w !! k) /\
  (forall f', files (fst (trace_stage zw w)) !! zw = Some f' ->
     snd (trace_stage zw w) <> Val None -> f_finalized f' = f_finalized f).
Proof.
  intros Hf. unfold trace_stage. run.
  destruct (zip_create_fault (faults w) "stack.txt"); sim;
    [unfold same_surroundings; leaf f Hf|].
  destruct (profile_fault (faults w)); sim;
    [unfold same_surroundings; leaf f Hf|].
  match goal with
  | |- context [dump_stage zw ?W] =>
    destruct (dump_stage_frame zw W
                (write_entry (pprof_text (runtime w) "goroutine" 1)
                   (add_entry "stack.txt" f)))
      as (Hs & Hc & Hk & Hfin)
  end.
  { sim. lookups. rewrite Hf. reflexivity. }
  split; [exact Hs|]. split; [exact Hc|]. split.
  - intros k Hk1 Hk2. rewrite (Hk k Hk1 Hk2). sim. lookups. reflexivity.
  - intros f' Hl Hr. exact (Hfin f' Hl Hr).
Qed.

Lemma snapshot_stage_frame zw w f :
  files w !! zw = Some f ->
  same_surroundings w (fst (snapshot_stage json_Marshal zw w)) /\
  clock (fst (snapshot_stage json_Marshal zw w)) =
    match read_build_info (process w) with
    | Some _ => (4 + clock w)%nat
    | None => (2 + clock w)%nat
    end /\
  (forall k, k <> zw -> k <> temp_path w ->
     files (fst (snapshot_stage json_Marshal zw w)) !! k = files w !! k) /\
  (forall f', files (fst (snapshot_stage json_Marshal zw w)) !! zw = Some f' ->
     snd (snapshot_stage json_Marshal zw w) <> Val None ->
     f_finalized f' = f_finalized f).
Proof.
  intros Hf. unfold snapshot_stage. rewrite !bind_Collect.
  destruct (read_build_info (process w)) as [bi|]; run.
  2: { unfold same_surroundings. split; [repeat split|]. split; [reflexivity|].
       split; [reflexivity|]. cbn. intros f' Hl _. congruence. }
  destruct (zip_create_fault (faults w) "snapshot.json"); sim;
    [unfold same_surroundings; leaf f Hf|].
  destruct (json_Marshal (collected w bi) "" "    ") as [bs|e]; sim;
    [|unfold same_surroundings; leaf f Hf].
  destruct (encode_fault (faults w)); sim;
    [unfold same_surroundings; leaf f Hf|].
  match goal with
  | |- context [trace_stage zw ?W] =>
    destruct (trace_stage_frame zw W (write_entry bs (add_entry "snapshot.json" f)))
      as (Hs & Hc & Hk & Hfin)
  end.
  { sim. lookups. rewrite Hf. reflexivity. }
  split; [exact Hs|]. split; [exact Hc|]. split.
  - intros k Hk1 Hk2. rewrite (Hk k Hk1 Hk2). sim. lookups. reflexivity.
  - intros f' Hl Hr. exact (Hfin f' Hl Hr).
Qed.

Lemma Full_frame w fileName :
  open_refused (faults w) fileName = None ->
  same_surroundings w (fst (Full json_Marshal fileName w)) /\
  clock (fst (Full json_Marshal fileName w)) =
    match read_build_info (process w) with
    | Some _ => (4 + clock w)%nat
    | None => (2 + clock w)%nat
    end /\
  (forall k, k <> fileName -> k <> temp_path w ->
     files (fst (Full json_Marshal fileName w)) !! k = files w !! k) /\
  (forall f', files (fst (Full json_Marshal fileName w)) !! fileName = Some f' ->
     snd (Full json_Marshal fileName w) <> Val None -> f_finalized f' = false).
Proof.
  intros Ho.
  destruct (snapshot_stage_frame fileName (opened w fileName) (opened_file w fileName))
    as (Hs & Hc & Hk & Hfin).
  { unfold opened. run. apply lookup_insert_eq. }
  assert (f_finalized (opened_file w fileName) = false) as Hnew.
  { unfold opened_file. destruct (files w !! fileName); reflexivity. }
  rewrite Full_stages. revert Hs Hc Hk Hfin.
  unfold opened, opened_file, same_surroundings, temp_path. run. rewrite Ho.
  destruct Full_flags as (-> & _ & ->).
  destruct (files w !! fileName) as [old|] eqn:Hold; sim.
  all: match goal with
       | |- context [snapshot_stage _ ?zw ?W] =>
         destruct (snapshot_stage json_Marshal zw W) as [w' r]
       end; sim.
  all: intros Hs Hc Hk Hfin.
  all: split; [exact Hs|]; split; [exact Hc|]; split.
  all: try (intros k Hk1 Hk2; rewrite (Hk k Hk1 Hk2); lookups; reflexivity).
  all: intros f' Hl Hr; rewrite (Hfin f' Hl Hr); reflexivity.
Qed.

(** ** Further properties of [Collect] *)

(** X1.  When the build information is there, [Collect] returns a record
    whatever errors [os.Executable], [os.Getwd] and [os.Hostname] answer
    with: the errors are dropped and the three fields hold the strings
    that came with them. *)
Theorem Collect_drops_lookup_errors w bi :
  read_build_info (process w) = Some bi ->
  exists s,
    snd (Collect w) = Val s /\ BuildInfo s = bi /\
    Executable s = fst (executable (process w)) /\
    Wd s = fst (getwd (process w)) /\
    Hostname s = fst (hostname (process w)) /\
    Pid s = getpid (process w) /\ Uid s = getuid (process w) /\
    Gid s = getgid (process w) /\ Environ s = environ (process w).
Proof.
  intros H. rewrite (Collect_returns w bi H).
  exists (collected w bi). repeat split.
Qed.

(** X2.  [Collect] only reads: it leaves the file system as it is, makes
    no call that is logged, and changes nothing of the surroundings. *)
Theorem Collect_only_reads w :
  files (fst (Collect w)) = files w /\
  log (fst (Collect w)) = log w /\
  tmp_pos (fst (Collect w)) = tmp_pos w /\
  same_surroundings w (fst (Collect w)).
Proof.
  rewrite Collect_eq. unfold same_surroundings.
  destruct (read_build_info (process w)); repeat split.
Qed.

(** ** Further properties of [Full] *)

(** X3.  [Full] returns nil exactly when the open and every later call
    whose error it looks at succeed; what [File.Seek], [io.Copy],
    [os.Remove] and [zw.Close] answer has no part in it. *)
Theorem Full_nil_exactly_when_checks_pass w fileName :
  snd (Full json_Marshal fileName w) = Val None <->
  exists bi bs, checks_pass json_Marshal w fileName bi bs.
Proof.
  rewrite Full_returns_nil_iff. unfold checks_pass, reaches_dump, temp_created.
  split.
  - intros (Ho & (bi & bs & Hbi & Hj) & Hz1 & He & Hz2 & Hp & Hct & Htmp & Hz3).
    exists bi, bs. repeat split; assumption.
  - intros (bi & bs & (Ho & Hbi & Hz1 & Hj & He & Hz2 & Hp) & (Hct & Htmp) & Hz3).
    repeat split; eauto.
Qed.

(** X4.  When no call fails, [Full] returns nil, the path holds a finalized
    archive of exactly the three entries in the order snapshot.json,
    stack.txt, heap.bin (the encoded record, the profile at level 1, the
    whole heap image), nothing else of the file system has changed, the
    temporary file being gone again, and the calls made are those of lines
    65-109, each once and in that order. *)
Theorem Full_succeeds_when_nothing_fails w fileName bi bs :
  open_refused (faults w) fileName = None ->
  read_build_info (process w) = Some bi ->
  json_Marshal (collected w bi) "" "    " = inl bs ->
  quiet (faults w) ->
  files (opened w fileName) !! temp_path w = None ->
  snd (Full json_Marshal fileName w) = Val None /\
  files (fst (Full json_Marshal fileName w)) =
    <[fileName :=
        mkFile (f_mode (opened_file w fileName)) []
          [("snapshot.json", bs);
           ("stack.txt", pprof_text (runtime w) "goroutine" 1);
           ("heap.bin", heap_image (runtime w))]
          true]> (files w) /\
  log (fst (Full json_Marshal fileName w)) =
    log w ++
    [EvOpenFile fileName (Z.lor (Z.lor O_CREATE O_WRONLY) O_TRUNC) ModePerm;
     EvZipCreate fileName "snapshot.json";
     EvEncode "snapshot.json" "" "    ";
     EvZipCreate fileName "stack.txt";
     EvWriteProfile "goroutine" "stack.txt" 1;
     EvCreateTemp "" "dump";
     EvWriteHeapDump (temp_path w);
     EvSeek (temp_path w) 0 0;
     EvZipCreate fileName "heap.bin";
     EvCopy "heap.bin" (temp_path w);
     EvClose (temp_path w);
     EvRemove (temp_path w);
     EvZipClose fileName;
     EvClose fileName].
Proof.
  intros Ho Hbi Hj (Hz & He & Hp & Hct & Hs & Hcp & Hrm & Hzc) Htmp.
  apply (Full_when_nothing_fails w fileName bi bs); assumption.
Qed.


Ltac outcome_cases :=
  unfold snapshot_outcome, trace_outcome, dump_outcome;
  repeat match goal with
         | |- context [match ?x with _ => _ end] =>
           lazymatch x with
           | context [match _ with _ => _ end] => fail
           | _ => destruct x eqn:?
           end
         | |- (exists _, _) -> _ =>
           let rest := fresh "rest" in
           let Hout := fresh "Hout" in
           intros (rest & -> & Hout); revert Hout
         end.

(** X6.  [Full] panics exactly when the open succeeds and the binary
    carries no build information: [Collect] is the only statement of
    [Full] that can panic, and it runs once the file is open. *)
Theorem Full_panics_iff w fileName :
  (exists msg, snd (Full json_Marshal fileName w) = Panic msg) <->
  open_refused (faults w) fileName = None /\
  read_build_info (process w) = None.
Proof.
  destruct (open_refused (faults w) fileName) as [e|] eqn:Ho.
  { rewrite (Full_refused w fileName e Ho). cbn [snd].
    split; [intros [msg H]; discriminate H|intros [H _]; discriminate H]. }
  destruct (Full_out w fileName Ho) as (f' & added & _ & _ & Hout).
  revert Hout. generalize (snd (Full json_Marshal fileName w)). intros r.
  change (read_build_info (process w))
    with (read_build_info (process (opened w fileName))).
  outcome_cases.
  all: intros [_ ->].
  all: split; [intros [msg H]; try discriminate H; auto
              |intros [_ H]; try discriminate H; eauto].
Qed.

(** X7.  When [Full] panics, the file has been opened already and the
    deferred [f.Close] still runs: the path holds an empty file (created,
    or truncated when one was there), nothing else has changed, and the
    only calls were the open and the close. *)
Theorem Full_panic_leaves_empty_file w fileName :
  open_refused (faults w) fileName = None ->
  read_build_info (process w) = None ->
  snd (Full json_Marshal fileName w) = Panic nil_dereference /\
  files (fst (Full json_Marshal fileName w)) =
    <[fileName := opened_file w fileName]> (files w) /\
  f_data (opened_file w fileName) = [] /\
  f_entries (opened_file w fileName) = [] /\
  log (fst (Full json_Marshal fileName w)) =
    log w ++
    [EvOpenFile fileName (Z.lor (Z.lor O_CREATE O_WRONLY) O_TRUNC) ModePerm;
     EvClose fileName].
Proof.
  intros Ho Hbi.
  destruct (opened_file_empty w fileName) as [Hd He].
  rewrite Full_stages. unfold snapshot_stage, opened_file.
  run. rewrite Ho. destruct Full_flags as (-> & _ & ->).
  destruct (files w !! fileName) as [old|] eqn:Hold; sim.
  all: rewrite Collect_eq; run; rewrite Hbi; sim.
  all: repeat split; rewrite <- ?app_assoc; reflexivity.
Qed.

(** X8.  [Full] writes to two paths only, the one it is given and the one
    of its temporary file: every other file is after the call what it was
    before, whatever the call returns. *)
Theorem Full_touches_two_paths w fileName k :
  k <> fileName -> k <> temp_path w ->
  files (fst (Full json_Marshal fileName w)) !! k = files w !! k.
Proof.
  intros Hk1 Hk2.
  destruct (open_refused (faults w) fileName) as [e|] eqn:Ho.
  - rewrite (Full_refused w fileName e Ho). reflexivity.
  - destruct (Full_frame w fileName Ho) as (_ & _ & Hk & _). exact (Hk k Hk1 Hk2).
Qed.


(** X10.  Once the open has succeeded, the first call of [Full] is the
    open and the last one the deferred close of the file it opened, on
    every path, the panic included. *)
Theorem Full_closes_the_file_last w fileName :
  open_refused (faults w) fileName = None ->
  exists evs,
    log (fst (Full json_Marshal fileName w)) =
    log w ++
    EvOpenFile fileName (Z.lor (Z.lor O_CREATE O_WRONLY) O_TRUNC) ModePerm ::
    evs ++ [EvClose fileName].
Proof.
  intros Ho. rewrite Full_stages. run. rewrite Ho. sim.
  destruct Full_flags as (-> & _ & ->).
  destruct (files w !! fileName); sim.
  all: match goal with
       | |- context [snapshot_stage _ ?zw ?W] =>
         destruct (snapshot_stage_log zw W) as [evs Hevs];
         destruct (snapshot_stage json_Marshal zw W) as [w' r]
       end; sim; cbn [fst] in Hevs; rewrite Hevs; sim.
  all: exists evs; rewrite <- !app_assoc; reflexivity.
Qed.

(** X11.  The error of the rewind is dropped too (line 98): when every
    checked call succeeds and [tmpFile.Seek] fails, the copy starts at the
    end of the temporary file, [Full] returns nil and heap.bin is
    empty. *)
Theorem Full_seek_failure_empties_heap_bin w fileName bi bs e :
  checks_pass json_Marshal w fileName bi bs ->
  seek_fault (faults w) = Some e ->
  snd (Full json_Marshal fileName w) = Val None /\
  exists f,
    files (fst (Full json_Marshal fileName w)) !! fileName = Some f /\
    f_entries f !! 2%nat = Some ("heap.bin", []).
Proof.
  intros Hc Hs.
  destruct (Full_past_checks w fileName bi bs Hc) as (Hr & Hf & _).
  split; [exact Hr|]. eexists. split; [exact Hf|].
  cbn. unfold copied. rewrite Hs, drop_all.
  destruct (copy_fault (faults w)) as [[n e0]|]; [rewrite take_nil|]; reflexivity.
Qed.

(** X12.  The error of [os.Remove] is dropped (line 107): when every
    checked call succeeds and the removal fails, [Full] returns nil and
    the temporary file stays, the heap image in it. *)
Theorem Full_remove_failure_leaves_temp_file w fileName bi bs e :
  checks_pass json_Marshal w fileName bi bs ->
  remove_fault (faults w) = Some e ->
  snd (Full json_Marshal fileName w) = Val None /\
  files (fst (Full json_Marshal fileName w)) !! temp_path w = Some (dumped_file w).
Proof.
  intros Hc Hrm.
  destruct (Full_past_checks w fileName bi bs Hc) as (Hr & _ & Ht).
  split; [exact Hr|]. rewrite Ht, Hrm. reflexivity.
Qed.

(** X13.  On the path through line 107 the temporary file is cleaned up:
    when every checked call succeeds and [os.Remove] does not fail, no
    file is left at the temporary path, whether or not the copy and the
    close of the archive went well. *)
Theorem Full_removes_temp_file w fileName bi bs :
  checks_pass json_Marshal w fileName bi bs ->
  remove_fault (faults w) = None ->
  files (fst (Full json_Marshal fileName w)) !! temp_path w = None.
Proof.
  intros Hc Hrm.
  destruct (Full_past_checks w fileName bi bs Hc) as (_ & _ & Ht).
  rewrite Ht, Hrm. reflexivity.
Qed.

Ltac straight w fileName Ho Hbi bi :=
  rewrite Full_stages;
  unfold snapshot_stage, trace_stage, dump_stage, opened_file;
  run; rewrite Ho; destruct Full_flags as (-> & _ & ->);
  destruct (files w !! fileName) as [old|] eqn:Hold; sim;
  rewrite Collect_eq; run; rewrite Hbi; sim;
  change (collected _ bi) with (collected w bi);
  walk;
  (split; [reflexivity|]); (split; [|rewrite <- !app_assoc; reflexivity]);
  apply map_eq; intros k;
  destruct (decide (k = fileName)) as [->|Hk]; lookups; reflexivity.

(** X14.  When the first entry cannot be created, [Full] returns the
    error "snapshot: " followed by the cause and stops: the file is left
    empty and nothing is called after [zw.Create] but the deferred
    close. *)
Theorem Full_first_entry_failure w fileName bi e :
  open_refused (faults w) fileName = None ->
  read_build_info (process w) = Some bi ->
  zip_create_fault (faults w) "snapshot.json" = Some e ->
  snd (Full json_Marshal fileName w) = Val (Some ("snapshot: " +:+ e)) /\
  files (fst (Full json_Marshal fileName w)) =
    <[fileName := mkFile (f_mode (opened_file w fileName)) [] [] false]> (files w) /\
  log (fst (Full json_Marshal fileName w)) =
    log w ++
    [EvOpenFile fileName (Z.lor (Z.lor O_CREATE O_WRONLY) O_TRUNC) ModePerm;
     EvZipCreate fileName "snapshot.json";
     EvClose fileName].
Proof.
  intros Ho Hbi Hz1. straight w fileName Ho Hbi bi.
Qed.



(** X17.  A second call on the same path overwrites the archive of the
    first: when nothing fails, after two calls in a row the path holds a
    finalized archive of three entries only, those of the second call,
    whose snapshot.json is the record collected at the later instant; the
    permission bits are those the first call left. *)
Theorem Full_twice_overwrites w fileName bi bs1 bs2 :
  open_refused (faults w) fileName = None ->
  read_build_info (process w) = Some bi ->
  quiet (faults w) ->
  json_Marshal (collected w bi) "" "    " = inl bs1 ->
  json_Marshal (collected (set_clock (4 + clock w)%nat w) bi) "" "    " = inl bs2 ->
  files (opened w fileName) !! temp_path w = None ->
  snd (Full json_Marshal fileName (fst (Full json_Marshal fileName w))) = Val None /\
  files (fst (Full json_Marshal fileName (fst (Full json_Marshal fileName w)))) =
    <[fileName :=
        mkFile (f_mode (opened_file w fileName)) []
          [("snapshot.json", bs2);
           ("stack.txt", pprof_text (runtime w) "goroutine" 1);
           ("heap.bin", heap_image (runtime w))]
          true]> (files w).
Proof.
  intros Ho Hbi (Hz & He & Hp & Hct & Hs & Hcp & Hrm & Hzc) Hj1 Hj2 Htmp.
  destruct (temp_created_free w fileName (conj Hct Htmp)) as [Hne Hfree].
  destruct (Full_when_nothing_fails w fileName bi bs1
              Ho Hbi Hj1 Hz He Hp Hct Hs Hcp Hrm Hzc Htmp) as (_ & Hf1 & _).
  destruct (Full_frame w fileName Ho)
    as ((Hpr & Hrt & Hfl & Hum & Htd & Htr) & Hck & _).
  rewrite Hbi in Hck.
  set (w1 := fst (Full json_Marshal fileName w)) in *.
  assert (temp_path w1 = temp_path w) as Htp
    by (unfold temp_path; rewrite Htd, Htr; reflexivity).
  assert (collected w1 bi = collected (set_clock (4 + clock w)%nat w) bi) as Hcol
    by (unfold collected; cbn; rewrite Hpr, Hrt, Hck; reflexivity).
  destruct (Full_when_nothing_fails w1 fileName bi bs2)
    as (Hr2 & Hf2 & _); rewrite ?Hfl, ?Hpr, ?Hcol; try assumption.
  { rewrite Htp. unfold opened. run.
    rewrite lookup_insert_ne by congruence.
    rewrite Hf1, lookup_insert_ne by congruence. exact Hfree. }
  split; [exact Hr2|]. rewrite Hf2, Hf1, insert_insert_eq, Hrt.
  unfold opened_file at 1. rewrite Hf1, lookup_insert_eq. reflexivity.
Qed.

End Properties.

(** * The properties at work *)

Lemma Collect_panics_without_build_info_witness :
  read_build_info (process no_build_info) = None /\
  snd (Collect no_build_info) = Panic nil_dereference.
Proof.
  split; [reflexivity|].
  apply (Collect_panics_without_build_info no_build_info). reflexivity.
Defined.

Lemma Collect_twice_same_identity_witness :
  exists w1 s1 w2 s2,
    Collect healthy = (w1, Val s1) /\ Collect w1 = (w2, Val s2) /\
    Pid s2 = Pid s1 /\ Hostname s2 = Hostname s1 /\ BuildInfo s2 = BuildInfo s1 /\
    Memory s1 = 0 /\ Memory s2 = 16384.
Proof.
  destruct (Collect_twice_same_identity healthy (fst (Collect healthy))
              (collected healthy "go1.22.1") eq_refl)
    as (w2 & s2 & H2 & Hp & _ & _ & _ & _ & Hh & Hb & Hm1 & Hm2 & _).
  exists (fst (Collect healthy)), (collected healthy "go1.22.1"), w2, s2.
  split; [reflexivity|]. split; [exact H2|].
  split; [exact Hp|]. split; [exact Hh|]. split; [exact Hb|].
  split; [exact Hm1|exact Hm2].
Defined.

Lemma Full_open_refused_witness :
  open_refused (faults missing_parent) "/nowhere/out.zip" = Some no_such_dir /\
  files missing_parent !! "/nowhere/out.zip" = None /\
  snd (Full demo_json "/nowhere/out.zip" missing_parent) =
    Val (Some "open: open /nowhere/out.zip: no such file or directory") /\
  files (fst (Full demo_json "/nowhere/out.zip" missing_parent)) !! "/nowhere/out.zip" = None.
Proof.
  destruct (Full_open_refused demo_json missing_parent "/nowhere/out.zip"
              no_such_dir eq_refl) as (Hr & Hf & _).
  split; [reflexivity|]. split; [reflexivity|]. split; [exact Hr|].
  rewrite Hf. reflexivity.
Defined.

Lemma Full_creates_or_truncates_witness :
  open_refused (faults with_stale_archive) "out.zip" = None /\
  files with_stale_archive !! "out.zip" = Some stale_archive /\
  exists f,
    files (fst (Full demo_json "out.zip" with_stale_archive)) !! "out.zip" = Some f /\
    f_mode f = 420 /\ f_data f = [] /\
    map fst (f_entries f) = ["snapshot.json"; "stack.txt"; "heap.bin"].
Proof.
  destruct (Full_creates_or_truncates demo_json with_stale_archive "out.zip" eq_refl)
    as (_ & _ & _ & H).
  destruct (H stale_archive eq_refl eq_refl)
    as (f & json & prof & heap & Hl & Hm & Hd & He).
  split; [reflexivity|]. split; [reflexivity|].
  exists f. rewrite He. auto.
Defined.

Lemma Full_trace_stage_witness :
  stack_txt_at demo_json 1 "out.zip" healthy.
Proof.
  destruct (Full_trace_stage demo_json healthy "out.zip" "go1.22.1"
              (list_byte_of_string "{    build-7}")
              eq_refl eq_refl eq_refl eq_refl eq_refl) as (_ & _ & H).
  exact (H eq_refl eq_refl).
Defined.

(** C5, as stated, fails: in the process [healthy] the profile at the full
    level differs from the one at level 1, and stack.txt holds the
    latter. *)
Lemma stack_txt_is_not_the_full_dump :
  snd (Full demo_json "out.zip" healthy) = Val None /\
  ~ stack_txt_at demo_json full_verbosity "out.zip" healthy.
Proof.
  split; [vm_compute; reflexivity|].
  intros (f & Hf & He).
  vm_compute in Hf. injection Hf as <-.
  vm_compute in He. discriminate He.
Qed.

Lemma Full_leaves_temp_file_when_heap_entry_fails_witness :
  files heap_entry_fails !! "/tmp/dump2873114" = None /\
  snd (Full demo_json "out.zip" heap_entry_fails) =
    Val (Some "dump: write out.zip: no space left on device") /\
  files (fst (Full demo_json "out.zip" heap_entry_fails)) !! "/tmp/dump2873114" =
    Some (mkFile 384 (list_byte_of_string "go1.7 heap dump") [] false) /\
  log (fst (Full demo_json "out.zip" heap_entry_fails)) =
    [EvOpenFile "out.zip" 577 511;
     EvZipCreate "out.zip" "snapshot.json";
     EvEncode "snapshot.json" "" "    ";
     EvZipCreate "out.zip" "stack.txt";
     EvWriteProfile "goroutine" "stack.txt" 1;
     EvCreateTemp "" "dump";
     EvWriteHeapDump "/tmp/dump2873114";
     EvSeek "/tmp/dump2873114" 0 0;
     EvZipCreate "out.zip" "heap.bin";
     EvClose "out.zip"].
Proof.
  assert (reaches_dump demo_json heap_entry_fails "out.zip" "go1.22.1"
            (list_byte_of_string "{    build-7}")) as Hr
    by (repeat split; reflexivity).
  assert (temp_created heap_entry_fails "out.zip") as Ht
    by (split; reflexivity).
  destruct (Full_leaves_temp_file_when_heap_entry_fails demo_json
              heap_entry_fails "out.zip" _ _ disk_full Hr Ht eq_refl)
    as [Hres Hfile].
  split; [reflexivity|]. split; [exact Hres|]. split; [exact Hfile|].
  vm_compute. reflexivity.
Defined.

Lemma Full_returns_nil_when_copy_fails_witness :
  copy_fault (faults copy_fails) = Some (0%nat, disk_full) /\
  snd (Full demo_json "out.zip" copy_fails) = Val None /\
  exists f,
    files (fst (Full demo_json "out.zip" copy_fails)) !! "out.zip" = Some f /\
    f_entries f !! 2%nat = Some ("heap.bin", []).
Proof.
  assert (checks_pass demo_json copy_fails "out.zip" "go1.22.1"
            (list_byte_of_string "{    build-7}")) as Hc
    by (repeat split; reflexivity).
  destruct (Full_returns_nil_when_copy_fails demo_json copy_fails "out.zip"
              _ _ 0%nat disk_full Hc eq_refl)
    as (Hres & f & heap & Hf & He & Hlen).
  split; [reflexivity|]. split; [exact Hres|].
  exists f. split; [exact Hf|]. rewrite He.
  destruct heap; [reflexivity|]. cbn in Hlen. lia.
Defined.

Lemma Full_returns_nil_when_zip_close_fails_witness :
  zip_close_fault (faults zip_close_fails) = Some disk_full /\
  snd (Full demo_json "out.zip" zip_close_fails) = Val None /\
  exists f,
    files (fst (Full demo_json "out.zip" zip_close_fails)) !! "out.zip" = Some f /\
    f_finalized f = false.
Proof.
  assert (checks_pass demo_json zip_close_fails "out.zip" "go1.22.1"
            (list_byte_of_string "{    build-7}")) as Hc
    by (repeat split; reflexivity).
  split; [reflexivity|].
  exact (Full_returns_nil_when_zip_close_fails demo_json zip_close_fails
           "out.zip" _ _ disk_full Hc eq_refl).
Defined.

Lemma Full_returns_nil_over_incomplete_archive_witness :
  snd (Full demo_json "out.zip" copy_and_close_fail) = Val None /\
  files (fst (Full demo_json "out.zip" copy_and_close_fail)) !! "out.zip" =
    Some (mkFile 493 []
            [("snapshot.json", list_byte_of_string "{    build-7}");
             ("stack.txt", list_byte_of_string "goroutine profile: total 3");
             ("heap.bin", [])]
            false).
Proof.
  assert (checks_pass demo_json copy_and_close_fail "out.zip" "go1.22.1"
            (list_byte_of_string "{    build-7}")) as Hc
    by (repeat split; reflexivity).
  exact (Full_returns_nil_over_incomplete_archive demo_json copy_and_close_fail
           "out.zip" _ _ disk_full disk_full Hc eq_refl eq_refl).
Defined.

(** ** Further properties at work *)

Lemma Collect_drops_lookup_errors_witness :
  exists s,
    snd (Collect lookups_fail) = Val s /\
    Executable s = "" /\ Wd s = "" /\ Hostname s = "" /\ Pid s = 4242.
Proof.
  destruct (Collect_drops_lookup_errors lookups_fail "go1.22.1" eq_refl)
    as (s & Hs & _ & He & Hw & Hh & Hp & _).
  exists s. split; [exact Hs|]. split; [exact He|]. split; [exact Hw|].
  split; [exact Hh|exact Hp].
Defined.

Lemma Full_succeeds_when_nothing_fails_witness :
  snd (Full demo_json "out.zip" healthy) = Val None /\
  files (fst (Full demo_json "out.zip" healthy)) !! "/tmp/dump2873114" = None /\
  files (fst (Full demo_json "out.zip" healthy)) !! "out.zip" =
    Some (mkFile 493 []
            [("snapshot.json", list_byte_of_string "{    build-7}");
             ("stack.txt", list_byte_of_string "goroutine profile: total 3");
             ("heap.bin", list_byte_of_string "go1.7 heap dump")]
            true).
Proof.
  assert (quiet (faults healthy)) as Hq by (repeat split).
  destruct (Full_succeeds_when_nothing_fails demo_json healthy "out.zip"
              "go1.22.1" (list_byte_of_string "{    build-7}")
              eq_refl eq_refl eq_refl Hq eq_refl) as (Hr & Hf & _).
  split; [exact Hr|]. rewrite Hf. split; reflexivity.
Defined.


Lemma Full_panic_leaves_empty_file_witness :
  snd (Full demo_json "out.zip" no_build_info) = Panic nil_dereference /\
  files (fst (Full demo_json "out.zip" no_build_info)) !! "out.zip" =
    Some (mkFile 493 [] [] false) /\
  log (fst (Full demo_json "out.zip" no_build_info)) =
    [EvOpenFile "out.zip" 577 511; EvClose "out.zip"].
Proof.
  destruct (Full_panic_leaves_empty_file demo_json no_build_info "out.zip"
              eq_refl eq_refl) as (Hr & Hf & _ & _ & Hl).
  split; [exact Hr|]. split; [rewrite Hf; reflexivity|exact Hl].
Defined.

Lemma Full_touches_two_paths_witness :
  files with_stale_archive !! "out.zip" = Some stale_archive /\
  files (fst (Full demo_json "new.zip" with_stale_archive)) !! "out.zip" =
    Some stale_archive.
Proof.
  split; [reflexivity|].
  rewrite (Full_touches_two_paths demo_json with_stale_archive "new.zip" "out.zip").
  - reflexivity.
  - intros H. discriminate H.
  - intros H. vm_compute in H. discriminate H.
Defined.


Lemma Full_closes_the_file_last_witness :
  exists evs,
    log (fst (Full demo_json "out.zip" heap_entry_fails)) =
    EvOpenFile "out.zip" 577 511 :: evs ++ [EvClose "out.zip"].
Proof.
  exact (Full_closes_the_file_last demo_json heap_entry_fails "out.zip" eq_refl).
Defined.

Lemma Full_seek_failure_empties_heap_bin_witness :
  seek_fault (faults seek_fails) = Some "seek /tmp/dump2873114: invalid argument" /\
  snd (Full demo_json "out.zip" seek_fails) = Val None /\
  exists f,
    files (fst (Full demo_json "out.zip" seek_fails)) !! "out.zip" = Some f /\
    f_entries f !! 2%nat = Some ("heap.bin", []).
Proof.
  assert (checks_pass demo_json seek_fails "out.zip" "go1.22.1"
            (list_byte_of_string "{    build-7}")) as Hc
    by (repeat split; reflexivity).
  split; [reflexivity|].
  exact (Full_seek_failure_empties_heap_bin demo_json seek_fails "out.zip"
           _ _ _ Hc eq_refl).
Defined.

Lemma Full_remove_failure_leaves_temp_file_witness :
  snd (Full demo_json "out.zip" remove_fails) = Val None /\
  files (fst (Full demo_json "out.zip" remove_fails)) !! "/tmp/dump2873114" =
    Some (mkFile 384 (list_byte_of_string "go1.7 heap dump") [] false).
Proof.
  assert (checks_pass demo_json remove_fails "out.zip" "go1.22.1"
            (list_byte_of_string "{    build-7}")) as Hc
    by (repeat split; reflexivity).
  exact (Full_remove_failure_leaves_temp_file demo_json remove_fails "out.zip"
           _ _ _ Hc eq_refl).
Defined.

Lemma Full_removes_temp_file_witness :
  copy_fault (faults copy_and_close_fail) = Some (0%nat, disk_full) /\
  files (fst (Full demo_json "out.zip" copy_and_close_fail)) !! "/tmp/dump2873114" = None.
Proof.
  assert (checks_pass demo_json copy_and_close_fail "out.zip" "go1.22.1"
            (list_byte_of_string "{    build-7}")) as Hc
    by (repeat split; reflexivity).
  split; [reflexivity|].
  exact (Full_removes_temp_file demo_json copy_and_close_fail "out.zip"
           _ _ Hc eq_refl).
Defined.

Lemma Full_first_entry_failure_witness :
  snd (Full demo_json "out.zip" first_entry_fails) =
    Val (Some "snapshot: write out.zip: no space left on device") /\
  files (fst (Full demo_json "out.zip" first_entry_fails)) !! "out.zip" =
    Some (mkFile 493 [] [] false) /\
  log (fst (Full demo_json "out.zip" first_entry_fails)) =
    [EvOpenFile "out.zip" 577 511; EvZipCreate "out.zip" "snapshot.json";
     EvClose "out.zip"].
Proof.
  destruct (Full_first_entry_failure demo_json first_entry_fails "out.zip"
              "go1.22.1" disk_full eq_refl eq_refl eq_refl) as (Hr & Hf & Hl).
  split; [exact Hr|]. split; [rewrite Hf; reflexivity|exact Hl].
Defined.



Lemma Full_twice_overwrites_witness :
  snd (Full demo_json "out.zip" (fst (Full demo_json "out.zip" healthy))) = Val None /\
  files (fst (Full demo_json "out.zip" (fst (Full demo_json "out.zip" healthy))))
    !! "out.zip" =
    Some (mkFile 493 []
            [("snapshot.json", list_byte_of_string "{    build-7}");
             ("stack.txt", list_byte_of_string "goroutine profile: total 3");
             ("heap.bin", list_byte_of_string "go1.7 heap dump")]
            true).
Proof.
  assert (quiet (faults healthy)) as Hq by (repeat split).
  destruct (Full_twice_overwrites demo_json healthy "out.zip" "go1.22.1"
              (list_byte_of_string "{    build-7}")
              (list_byte_of_string "{    build-7}")
              eq_refl eq_refl Hq eq_refl eq_refl eq_refl) as (Hr & Hf).
  split; [exact Hr|]. rewrite Hf. reflexivity.
Defined.
